(** * Crossplane: the [spark] function runner and the [xpkg update] commands

    A shallow embedding of [cmd/xfn/spark/spark.go] and
    [cmd/crank/xpkg/update.go].  Both files are sequences of calls into
    collaborators (the protobuf library, the OCI stores, the operating
    system, the Kubernetes client) with an [if err != nil] after each.  The
    collaborators are taken as an environment record; every call is logged
    in a trace together with what it was given and what it returned, and the
    bytes written to standard output are kept in the world. *)

From Stdlib Require Import List String Ascii ZArith NArith Lia Bool.
Import ListNotations.
Open Scope string_scope.
Open Scope list_scope.

Definition bytes := list Byte.byte.

(** ** Go errors, and [errors.Wrap] of crossplane-runtime *)

Module Errors.

(** An error value is a cause produced by some collaborator, with the
    messages that were wrapped around it. *)
Inductive error : Type :=
| Cause (what : string)
| WithMessage (cause : error) (message : string).

(** [errors.Wrap]: "Returns nil if err is nil". *)
Definition Wrap (err : option error) (message : string) : option error :=
  match err with
  | None => None
  | Some e => Some (WithMessage e message)
  end.

(** A Go call returning [(T, error)]: the value when the error is nil. *)
Definition result (T : Type) : Type := (T + error)%type.

End Errors.
Import Errors.

(** ** A monad for a Go function body that returns [error]

    A computation threads a world and either goes on with a value or
    leaves the function with the [error] it returns ([None] is [nil]). *)

Module Flow.
Section WithWorld.
Context {W : Type}.

Inductive flow (A : Type) : Type :=
| Continue (a : A)
| Return (err : option error).
Arguments Continue {A} a.
Arguments Return {A} err.

Definition M (A : Type) : Type := W -> flow A * W.

Definition ret {A} (a : A) : M A := fun w => (Continue a, w).

Definition bind {A B} (m : M A) (k : A -> M B) : M B :=
  fun w =>
    match m w with
    | (Continue a, w') => k a w'
    | (Return e, w') => (Return e, w')
    end.

(** [return err] *)
Definition return_ {A} (err : option error) : M A := fun w => (Return err, w).

(** [defer d]: [d] runs when the rest of the body has left the function. *)
Definition defer {A} (d : W -> W) (body : M A) : M A :=
  fun w => let (r, w') := body w in (r, d w').

(** What the caller sees: the returned error and the final world. *)
Definition call (m : M unit) (w : W) : option error * W :=
  match m w with
  | (Continue _, w') => (None, w')
  | (Return e, w') => (e, w')
  end.

End WithWorld.
Arguments M : clear implicits.
Arguments Continue {A} a.
Arguments Return {A} err.
End Flow.
Import Flow.

Declare Scope go_scope.
Delimit Scope go_scope with go.
Notation "x <- c ;; k" := (bind c (fun x => k))
  (at level 61, c at next level, right associativity) : go_scope.
Notation "c ;; k" := (bind c (fun _ => k))
  (at level 61, right associativity) : go_scope.
(** [x, err := c; if err != nil { return h }] *)
Notation "x <-? c 'else' err => h ;; k" :=
  (bind c (fun r => match r with inl x => k | inr err => return_ h end))
  (at level 61, c at next level, err name, h at next level,
   right associativity) : go_scope.
(** [if err := c; err != nil { h }] where [h] ends in a return *)
Notation "'check' c 'else' err => h ;; k" :=
  (bind c (fun r => match r with None => k | Some err => h end))
  (at level 61, c at next level, err name, h at next level,
   right associativity) : go_scope.

(** ** Tactics for listed traces *)

Ltac in_cases H :=
  repeat (destruct H as [H | H]; [try discriminate H | ]); try contradiction.

Ltac find_in := repeat first [left; reflexivity | right].

(** Splits a listed trace at the event the goal names. *)
Ltac split_trace :=
  lazymatch goal with
  | |- exists pre post, ?l = pre ++ ?x :: post /\ _ =>
      let T := type of x in
      let rec go pre l :=
        lazymatch l with
        | x :: ?rest => exists pre, rest
        | ?y :: ?rest =>
            let pre' := eval cbn [app] in (pre ++ [y]) in go pre' rest
        end in
      go (@nil T) l
  end.

(** ** The messages of the envelope

    The message types of [apis/apiextensions/fn/proto/v1alpha1] are
    generated code that is not under src/.  [Run] reads a request through
    the getters [GetImage], [GetInput], [GetImagePullConfig] and
    [GetRunFunctionConfig().GetTimeout()], and builds a response from its
    [Output].  Getters of generated messages accept a nil receiver and then
    give the zero value, which is how an absent sub-message reads. *)

Module V1alpha1.

(** Modelled from the spec: the optional execution timeout of a Request, a
    [durationpb.Duration] with [int64] seconds and [int32] nanoseconds. *)
Record Duration : Type := { Seconds : Z; Nanos : Z }.

(** Modelled from the spec: the pull configuration of a Request (registry
    auth and policy), passed to the puller as it is. *)
Record ImagePullConfig : Type := { PullPolicy : Z; Auth : bytes }.

(** Modelled from the spec: the run configuration, of which [Run] reads
    the timeout. *)
Record RunFunctionConfig : Type := { Timeout : option Duration }.

(** Modelled from the spec: a Request holds an image reference string, a
    pull configuration, opaque input payload bytes and an optional
    execution timeout.  The fields are named after the getters [Run]
    calls. *)
Record RunFunctionRequest : Type := {
  GetImage : string;
  GetInput : bytes;
  GetImagePullConfig : option ImagePullConfig;
  GetRunFunctionConfig : option RunFunctionConfig
}.

(** Modelled from the spec: a Response holds opaque output payload bytes. *)
Record RunFunctionResponse : Type := { Output : bytes }.

Definition GetTimeout (x : option RunFunctionConfig) : option Duration :=
  match x with
  | Some c => Timeout c
  | None => None
  end.

Definition GetSeconds (x : option Duration) : Z :=
  match x with Some d => Seconds d | None => 0 end.

Definition GetNanos (x : option Duration) : Z :=
  match x with Some d => Nanos d | None => 0 end.

(** [time.Duration] is an [int64] count of nanoseconds. *)
Definition int64 (z : Z) : Z := (z + 2 ^ 63) mod 2 ^ 64 - 2 ^ 63.
Definition MinInt64 : Z := - 2 ^ 63.
Definition MaxInt64 : Z := 2 ^ 63 - 1.
Definition Second : Z := 1000000000.

(** [AsDuration] of the protobuf library's [durationpb.Duration]: seconds
    and nanoseconds added up in [int64], saturating on overflow; nil reads
    as zero. *)
Definition AsDuration (x : option Duration) : Z :=
  let secs := GetSeconds x in
  let nanos := GetNanos x in
  let d := int64 (secs * Second) in
  let overflow := negb (Z.quot d Second =? secs)%Z in
  let d := int64 (d + nanos) in
  let overflow := overflow || ((secs <? 0) && (nanos <? 0) && (0 <? d))%Z in
  let overflow := overflow || ((0 <? secs) && (0 <? nanos) && (d <? 0))%Z in
  if overflow then
    if (secs <? 0)%Z then MinInt64
    else if (0 <? secs)%Z then MaxInt64
    else d
  else d.

End V1alpha1.
Import V1alpha1.

(** ** [package spark] *)

Module Spark.

(** Error strings. *)
Definition errReadRequest := "cannot read request from stdin".
Definition errUnmarshalRequest := "cannot unmarshal request data from stdin".
Definition errNewBundleStore := "cannot create OCI runtime bundle store".
Definition errNewDigestStore := "cannot create OCI image digest store".
Definition errParseRef := "cannot parse OCI image reference".
Definition errPull := "cannot pull OCI image".
Definition errBundleFn := "cannot create OCI runtime bundle".
Definition errMkRuntimeRootdir := "cannot make OCI runtime cache".
Definition errRuntime := "OCI runtime error".
Definition errCleanupBundle := "cannot cleanup OCI runtime bundle".
Definition errMarshalResponse := "cannot marshal response data to stdout".
Definition errWriteResponse := "cannot write response data to stdout".

(** The path within the cache dir that the OCI runtime should use for its
    '--root' cache. *)
Definition ociRuntimeRoot := "runtime".

(** The time after which the OCI runtime will be killed if none is
    specified in the RunFunctionRequest. *)
Definition defaultTimeout : Z := 25 * Second.

(** Command runs a containerized Composition Function. *)
Record Command : Type := { CacheDir : string; Runtime : string }.

(** [context.WithTimeout(context.Background(), t)]. *)
Record Context : Type := WithTimeout { timeout : Z }.

(** The two implementations of [store.Bundler]. *)
Inductive Bundler : Type :=
| uncompressed_Bundler (root : string)
| overlay_CachingBundler (root : string).

Definition uncompressed_NewBundler (root : string) : Bundler :=
  uncompressed_Bundler root.

(** [exec.Cmd] as [exec.CommandContext] builds it: the context, the name
    of the program, [Args] holding the name followed by the arguments, and
    the standard input. *)
Record Cmd : Type := {
  cmd_ctx : Context;
  cmd_name : string;
  Args : list string;
  Stdin : bytes
}.

Definition exec_CommandContext (ctx : Context) (name : string)
    (arg : list string) : Cmd :=
  {| cmd_ctx := ctx; cmd_name := name; Args := name :: arg; Stdin := [] |}.

Definition set_Stdin (cmd : Cmd) (r : bytes) : Cmd :=
  {| cmd_ctx := cmd_ctx cmd; cmd_name := cmd_name cmd; Args := Args cmd;
     Stdin := r |}.

(** What a child process leaves behind: its two output streams and the
    error of waiting for it (nil when it exited with status 0). *)
Record Child : Type := {
  child_stdout : bytes;
  child_stderr : bytes;
  child_err : option error
}.

Section Run.

(** Values of the collaborators that [Run] only passes along. *)
Variables Reference v1Image Bundle DigestStore : Type.

(** [oci.NewCachingPuller(h, store.NewImage(dir), &oci.RemoteClient{})] *)
Record CachingPuller : Type := {
  puller_digest : DigestStore;
  puller_image_store : string
}.

Definition store_NewImage (root : string) : string := root.

Definition oci_NewCachingPuller (h : DigestStore) (i : string) : CachingPuller :=
  {| puller_digest := h; puller_image_store := i |}.

(** The collaborators: what each call gives for its arguments. *)
Record Env : Type := {
  io_ReadAll_Stdin : result bytes;
  proto_Unmarshal : bytes -> result RunFunctionRequest;
  uuid_NewString : string;
  overlay_Supported : string -> bool;
  overlay_NewCachingBundler : string -> option error;
  store_NewDigest : string -> result DigestStore;
  name_ParseReference : string -> result Reference;
  CachingPuller_Image :
    CachingPuller -> Context -> Reference -> option ImagePullConfig ->
    result v1Image;
  Bundler_Bundle : Bundler -> Context -> v1Image -> string -> result Bundle;
  filepath_Join : string -> string -> string;
  os_MkdirAll : string -> N -> option error;
  Bundle_Path : Bundle -> string;
  Cmd_Run : Cmd -> Child;
  Bundle_Cleanup : Bundle -> option error;
  proto_Marshal : RunFunctionResponse -> result bytes;
  Stdout_Write : bytes -> nat * option error
}.

(** One entry per call, with its arguments and what it returned. *)
Inductive Event : Type :=
| EvReadAll (r : result bytes)
| EvUnmarshal (pb : bytes) (r : result RunFunctionRequest)
| EvWithTimeout (t : Z)
| EvNewString (id : string)
| EvNewBundler (root : string)
| EvSupported (root : string) (ok : bool)
| EvNewCachingBundler (root : string) (err : option error)
| EvNewDigest (root : string) (r : result DigestStore)
| EvParseReference (s : string) (r : result Reference)
| EvImage (p : CachingPuller) (ctx : Context) (ref : Reference)
    (cfg : option ImagePullConfig) (r : result v1Image)
| EvBundle (s : Bundler) (ctx : Context) (img : v1Image) (id : string)
    (r : result Bundle)
| EvMkdirAll (path : string) (perm : N) (err : option error)
| EvOutput (cmd : Cmd) (child : Child)
| EvCleanup (b : Bundle) (err : option error)
| EvMarshal (rsp : RunFunctionResponse) (r : result bytes)
| EvWrite (pb : bytes) (n : nat) (err : option error)
| EvCancel (ctx : Context).

Record World : Type := { trace : list Event; stdout : bytes }.

Definition start : World := {| trace := []; stdout := [] |}.

Definition log (e : Event) (w : World) : World :=
  {| trace := trace w ++ [e]; stdout := stdout w |}.

Definition emit {A} (a : A) (e : Event) : M World A :=
  fun w => (Continue a, log e w).

Variable env : Env.

Definition ReadAll_Stdin : M World (result bytes) :=
  let r := io_ReadAll_Stdin env in emit r (EvReadAll r).

Definition Unmarshal (pb : bytes) : M World (result RunFunctionRequest) :=
  let r := proto_Unmarshal env pb in emit r (EvUnmarshal pb r).

Definition context_WithTimeout (t : Z) : M World Context :=
  emit (WithTimeout t) (EvWithTimeout t).

Definition cancel (ctx : Context) (w : World) : World := log (EvCancel ctx) w.

Definition NewString : M World string :=
  let id := uuid_NewString env in emit id (EvNewString id).

Definition NewBundler (root : string) : M World Bundler :=
  emit (uncompressed_NewBundler root) (EvNewBundler root).

Definition Supported (root : string) : M World bool :=
  let ok := overlay_Supported env root in emit ok (EvSupported root ok).

Definition NewCachingBundler (root : string) : M World (Bundler * option error) :=
  let err := overlay_NewCachingBundler env root in
  emit (overlay_CachingBundler root, err) (EvNewCachingBundler root err).

Definition NewDigest (root : string) : M World (result DigestStore) :=
  let r := store_NewDigest env root in emit r (EvNewDigest root r).

Definition ParseReference (s : string) : M World (result Reference) :=
  let r := name_ParseReference env s in emit r (EvParseReference s r).

Definition Image (p : CachingPuller) (ctx : Context) (ref : Reference)
    (cfg : option ImagePullConfig) : M World (result v1Image) :=
  let r := CachingPuller_Image env p ctx ref cfg in
  emit r (EvImage p ctx ref cfg r).

Definition Bundle_ (s : Bundler) (ctx : Context) (img : v1Image)
    (id : string) : M World (result Bundle) :=
  let r := Bundler_Bundle env s ctx img id in emit r (EvBundle s ctx img id r).

Definition MkdirAll (path : string) (perm : N) : M World (option error) :=
  let err := os_MkdirAll env path perm in emit err (EvMkdirAll path perm err).

(** [Output] of [exec.Cmd]: runs the command and returns its standard
    output; the error stream is not part of the returned bytes. *)
Definition Cmd_Output (cmd : Cmd) : M World (bytes * option error) :=
  let child := Cmd_Run env cmd in
  emit (child_stdout child, child_err child) (EvOutput cmd child).

Definition Cleanup (b : Bundle) : M World (option error) :=
  let err := Bundle_Cleanup env b in emit err (EvCleanup b err).

Definition Marshal (rsp : RunFunctionResponse) : M World (result bytes) :=
  let r := proto_Marshal env rsp in emit r (EvMarshal rsp r).

(** [os.Stdout.Write]: the first [n] bytes reach standard output. *)
Definition Write (pb : bytes) : M World (nat * option error) :=
  fun w =>
    let (n, err) := Stdout_Write env pb in
    (Continue (n, err),
     {| trace := trace w ++ [EvWrite pb n err];
        stdout := stdout w ++ firstn n pb |}).

(** Run a Composition Function inside an unprivileged user namespace.
    Reads a protocol buffer serialized RunFunctionRequest from stdin,
    and writes a protocol buffer serialized RunFunctionResponse to
    stdout.

    The [err] that the bundler selection tests is the variable declared by
    [io.ReadAll], which is nil once the request was read; [defer cancel()]
    runs at every return after the context was made. *)
Definition Run (c : Command) : M World unit :=
  (pb <-? ReadAll_Stdin else err => Wrap (Some err) errReadRequest ;;
   req <-? Unmarshal pb else err => Wrap (Some err) errUnmarshalRequest ;;
   let err : option error := None in
   let t := AsDuration (GetTimeout (GetRunFunctionConfig req)) in
   let t := if (t =? 0)%Z then defaultTimeout else t in
   ctx <- context_WithTimeout t ;;
   defer (cancel ctx)
    (runID <- NewString ;;
     s <- NewBundler (CacheDir c) ;;
     supported <- Supported (CacheDir c) ;;
     s_err <- (if supported then NewCachingBundler (CacheDir c)
               else ret (s, err)) ;;
     let s := fst s_err in
     check ret (snd s_err)
       else err => return_ (Wrap (Some err) errNewBundleStore) ;;
     h <-? NewDigest (CacheDir c)
       else err => Wrap (Some err) errNewDigestStore ;;
     r <-? ParseReference (GetImage req)
       else err => Wrap (Some err) errParseRef ;;
     let p := oci_NewCachingPuller h (store_NewImage (CacheDir c)) in
     img <-? Image p ctx r (GetImagePullConfig req)
       else err => Wrap (Some err) errPull ;;
     b <-? Bundle_ s ctx img runID
       else err => Wrap (Some err) errBundleFn ;;
     let root := filepath_Join env (CacheDir c) ociRuntimeRoot in
     check MkdirAll root 448
       else err => (Cleanup b ;;
                    return_ (Wrap (Some err) errMkRuntimeRootdir)) ;;
     let cmd :=
       exec_CommandContext ctx (Runtime c)
         [("--root=" ++ root)%string; "run";
          ("--bundle=" ++ Bundle_Path env b)%string; runID] in
     let cmd := set_Stdin cmd (GetInput req) in
     out_err <- Cmd_Output cmd ;;
     let out := fst out_err in
     check ret (snd out_err)
       else err => (Cleanup b ;;
                    return_ (Wrap (Some err) errRuntime)) ;;
     check Cleanup b
       else err => return_ (Wrap (Some err) errCleanupBundle) ;;
     let rsp := {| Output := out |} in
     pb <-? Marshal rsp else err => Wrap (Some err) errMarshalResponse ;;
     n_err <- Write pb ;;
     return_ (Wrap (snd n_err) errWriteResponse)))%go.

(** One invocation of the command, from an empty trace and nothing on
    standard output: the error [Run] returns and the world it leaves. *)
Definition invoke (c : Command) : option error * World :=
  call (Run c) start.

(** *** Reading a trace *)

Definition is_cleanup (e : Event) : bool :=
  match e with EvCleanup _ _ => true | _ => false end.

Definition is_probe (e : Event) : bool :=
  match e with EvSupported _ _ => true | _ => false end.

Definition is_deadline (e : Event) : bool :=
  match e with EvWithTimeout _ => true | _ => false end.

Definition is_output (e : Event) : bool :=
  match e with EvOutput _ _ => true | _ => false end.

Definition is_resolve (e : Event) : bool :=
  match e with
  | EvParseReference _ _ | EvImage _ _ _ _ _ => true
  | _ => false
  end.

Definition is_bundle (e : Event) : bool :=
  match e with EvBundle _ _ _ _ _ => true | _ => false end.

Definition count (p : Event -> bool) (tr : list Event) : nat :=
  List.length (filter p tr).

(** The steps of the pipeline. *)
Inductive Step : Type :=
| ReadRequest | DecodeRequest | BundlerConstruction | DigestStoreCreation
| ReferenceParse | Pull | Bundling | RuntimeRootCreation | Execution
| BundleCleanup | EncodeResponse | WriteResponse.

(** The step that a logged call reports as failed, if it does. *)
Definition failed (e : Event) : option Step :=
  match e with
  | EvReadAll (inr _) => Some ReadRequest
  | EvUnmarshal _ (inr _) => Some DecodeRequest
  | EvNewCachingBundler _ (Some _) => Some BundlerConstruction
  | EvNewDigest _ (inr _) => Some DigestStoreCreation
  | EvParseReference _ (inr _) => Some ReferenceParse
  | EvImage _ _ _ _ (inr _) => Some Pull
  | EvBundle _ _ _ _ (inr _) => Some Bundling
  | EvMkdirAll _ _ (Some _) => Some RuntimeRootCreation
  | EvOutput _ child =>
      match child_err child with
      | Some _ => Some Execution
      | None => None
      end
  | EvCleanup _ (Some _) => Some BundleCleanup
  | EvMarshal _ (inr _) => Some EncodeResponse
  | EvWrite _ _ (Some _) => Some WriteResponse
  | _ => None
  end.

(** The steps up to and including the execution of the function. *)
Definition setup_or_execution (s : Step) : bool :=
  match s with
  | ReadRequest | DecodeRequest | BundlerConstruction
  | DigestStoreCreation | ReferenceParse | Pull | Bundling
  | RuntimeRootCreation | Execution => true
  | BundleCleanup | EncodeResponse | WriteResponse => false
  end.

(** The context a call was given. *)
Definition ctx_of (e : Event) : option Context :=
  match e with
  | EvImage _ ctx _ _ _ => Some ctx
  | EvBundle _ ctx _ _ _ => Some ctx
  | EvOutput cmd _ => Some (cmd_ctx cmd)
  | _ => None
  end.

End Run.

Arguments EvReadAll {Reference v1Image Bundle DigestStore}.
Arguments EvUnmarshal {Reference v1Image Bundle DigestStore}.
Arguments EvWithTimeout {Reference v1Image Bundle DigestStore}.
Arguments EvNewString {Reference v1Image Bundle DigestStore}.
Arguments EvNewBundler {Reference v1Image Bundle DigestStore}.
Arguments EvSupported {Reference v1Image Bundle DigestStore}.
Arguments EvNewCachingBundler {Reference v1Image Bundle DigestStore}.
Arguments EvNewDigest {Reference v1Image Bundle DigestStore}.
Arguments EvParseReference {Reference v1Image Bundle DigestStore}.
Arguments EvImage {Reference v1Image Bundle DigestStore}.
Arguments EvBundle {Reference v1Image Bundle DigestStore}.
Arguments EvMkdirAll {Reference v1Image Bundle DigestStore}.
Arguments EvOutput {Reference v1Image Bundle DigestStore}.
Arguments EvCleanup {Reference v1Image Bundle DigestStore}.
Arguments EvMarshal {Reference v1Image Bundle DigestStore}.
Arguments EvWrite {Reference v1Image Bundle DigestStore}.
Arguments EvCancel {Reference v1Image Bundle DigestStore}.
Arguments trace {Reference v1Image Bundle DigestStore}.
Arguments stdout {Reference v1Image Bundle DigestStore}.
Arguments invoke {Reference v1Image Bundle DigestStore}.
Arguments Run {Reference v1Image Bundle DigestStore}.
Arguments is_cleanup {Reference v1Image Bundle DigestStore}.
Arguments is_probe {Reference v1Image Bundle DigestStore}.
Arguments is_deadline {Reference v1Image Bundle DigestStore}.
Arguments is_output {Reference v1Image Bundle DigestStore}.
Arguments is_resolve {Reference v1Image Bundle DigestStore}.
Arguments is_bundle {Reference v1Image Bundle DigestStore}.
Arguments count {Reference v1Image Bundle DigestStore}.
Arguments failed {Reference v1Image Bundle DigestStore}.
Arguments ctx_of {Reference v1Image Bundle DigestStore}.

(** Unfolding [invoke] and splitting on the calls that decide the path. *)
Ltac run_open H :=
  cbv beta iota zeta delta
    [invoke call Run bind ret return_ defer emit log cancel start
     ReadAll_Stdin Unmarshal context_WithTimeout NewString NewBundler
     Supported NewCachingBundler NewDigest ParseReference Image Bundle_
     MkdirAll Cmd_Output Cleanup Marshal Write] in H;
  cbv beta iota zeta delta [fst snd trace stdout app] in H.

(** The deadline is kept as one named value while the path is split. *)
Ltac name_deadline H :=
  try match type of H with
      | context [if ?b then defaultTimeout else ?t] =>
          let deadline := fresh "deadline" in
          set (deadline := if b then defaultTimeout else t) in *
      end.

Ltac run_step H :=
  match type of H with
  | context [match ?x with _ => _ end] =>
      lazymatch x with
      | context [match _ with _ => _ end] => fail
      | (_ =? _)%Z => fail
      | _ =>
          destruct x eqn:?;
          cbv beta iota zeta delta [fst snd trace stdout app] in H;
          name_deadline H
      end
  end.

Ltac run_cases H :=
  run_open H; repeat run_step H;
  apply pair_equal_spec in H; destruct H as [? ?]; subst.

(** Decides which step a listed event reports as failed. *)
Ltac failed_cases Hf :=
  cbn [failed] in Hf;
  repeat match goal with
         | E : ?x = _ |- _ =>
             match type of Hf with
             | context [match x with _ => _ end] => rewrite E in Hf
             end
         end;
  repeat match type of Hf with
         | context [match ?x with _ => _ end] => destruct x
         end;
  try discriminate Hf.

Ltac unfold_messages H :=
  cbv [Wrap errReadRequest errUnmarshalRequest errNewBundleStore
       errNewDigestStore errParseRef errPull errBundleFn
       errMkRuntimeRootdir errRuntime errCleanupBundle
       errMarshalResponse errWriteResponse] in H.

(** *** Sample runs

    A host where every collaborator value is trivial; the parameters choose
    the probe's answer and which calls fail. *)

Definition sample_request : RunFunctionRequest :=
  {| GetImage := "registry.example/fn:v1";
     GetInput := [Byte.x7b; Byte.x7d];
     GetImagePullConfig := None;
     GetRunFunctionConfig := None |}.

Definition sample_child (err : option error) : Child :=
  {| child_stdout := [Byte.x6f; Byte.x6b];
     child_stderr := [Byte.x21];
     child_err := err |}.

Definition sample_env (overlay : bool) (bundler pull mkdir run cleanup : option error)
  : Env unit unit unit unit :=
  {| io_ReadAll_Stdin := inl [Byte.x0a];
     proto_Unmarshal := fun _ => inl sample_request;
     uuid_NewString := "run-1";
     overlay_Supported := fun _ => overlay;
     overlay_NewCachingBundler := fun _ => bundler;
     store_NewDigest := fun _ => inl tt;
     name_ParseReference := fun _ => inl tt;
     CachingPuller_Image := fun _ _ _ _ =>
       match pull with Some e => inr e | None => inl tt end;
     Bundler_Bundle := fun _ _ _ _ => inl tt;
     filepath_Join := fun a b => (a ++ "/" ++ b)%string;
     os_MkdirAll := fun _ _ => mkdir;
     Bundle_Path := fun _ => "/xfn/bundle";
     Cmd_Run := fun _ => sample_child run;
     Bundle_Cleanup := fun _ => cleanup;
     proto_Marshal := fun rsp => inl (Byte.x0a :: Byte.x02 :: Output rsp);
     Stdout_Write := fun pb => (List.length pb, None) |}.

Definition sample_command : Command := {| CacheDir := "/xfn"; Runtime := "crun" |}.

Definition sample_ctx : Context := WithTimeout 25000000000.

(** The command that starts the runtime on the sample host. *)
Definition sample_runtime_cmd : Cmd :=
  set_Stdin
    (exec_CommandContext sample_ctx "crun"
       ["--root=/xfn/runtime"; "run"; "--bundle=/xfn/bundle"; "run-1"])
    [Byte.x7b; Byte.x7d].

(** Every call succeeds, on a host with overlay support. *)
Definition all_succeed : Env unit unit unit unit :=
  sample_env true None None None None None.

(** The registry cannot be reached. *)
Definition pull_fails : Env unit unit unit unit :=
  sample_env true None (Some (Cause "registry unreachable")) None None None.

(** The probe says yes, and the overlay bundler cannot be made. *)
Definition overlay_broken : Env unit unit unit unit :=
  sample_env true (Some (Cause "cannot mount")) None None None None.

(** The function exits with status 1 and the release of its Bundle fails
    too, on a host without overlay support. *)
Definition run_and_cleanup_fail : Env unit unit unit unit :=
  sample_env false None None None
    (Some (Cause "exit status 1")) (Some (Cause "unmount failed")).

End Spark.

(** ** Image references of go-containerregistry's [name] package

    A reference is a repository with a tag or with a digest; its name puts
    [:] before a tag and [@] before a digest.  [Repository.Tag] and
    [Repository.Digest] build a reference from an identifier as given. *)

Module Name.

Record Repository : Type := { Repository_Name : string }.

Inductive Reference : Type :=
| Tag (r : Repository) (tag : string)
| Digest (r : Repository) (digest : string).

Definition Context (ref : Reference) : Repository :=
  match ref with
  | Tag r _ => r
  | Digest r _ => r
  end.

Definition Name (ref : Reference) : string :=
  match ref with
  | Tag r t => (Repository_Name r ++ ":" ++ t)%string
  | Digest r d => (Repository_Name r ++ "@" ++ d)%string
  end.

Definition is_digest (ref : Reference) : bool :=
  match ref with
  | Digest _ _ => true
  | Tag _ _ => false
  end.

End Name.

(** [x, err := c; if err != nil { h }] where [h] is a block that returns *)
Notation "x <-! c 'else' err => h ;; k" :=
  (bind c (fun r => match r with inl x => k | inr err => h end))
  (at level 61, c at next level, err name, h at next level,
   right associativity) : go_scope.

(** ** [package xpkg]: the update commands *)

Module Xpkg.

(** updateConfigCmd updates a Configuration. *)
Record updateConfigCmd : Type := {
  config_Name : string;
  config_Tag : string
}.

(** updateProviderCmd update a Provider. *)
Record updateProviderCmd : Type := {
  provider_Name : string;
  provider_Tag : string
}.

(** updateFunctionCmd update a Function. *)
Record updateFunctionCmd : Type := {
  function_Name : string;
  function_Tag : string
}.

(** The typed clients: [kube.Configurations()], [kube.Providers()] of
    [clientpkgv1] and [kube.Functions()] of [clientpkgv1beta1]. *)
Inductive Resource : Type := Configurations | Providers | Functions.

Inductive ClientPackage : Type := clientpkgv1 | clientpkgv1beta1.

Inductive PatchType : Type :=
| JSONPatchType | MergePatchType | StrategicMergePatchType | ApplyPatchType.

Definition strings_HasPrefix (s pre : string) : bool := String.prefix pre s.

Definition newline : string := String (Ascii.ascii_of_nat 10) EmptyString.

Section Run.

(** The parts of a package object that the commands do not look at. *)
Variables ObjectMeta SpecRest PackageStatus : Type.

(** [PackageSpec] with its [Package] field, as [v1.Configuration],
    [v1.Provider] and [v1beta1.Function] embed it in their [Spec]. *)
Record PackageSpec : Type := {
  Package : string;
  spec_rest : SpecRest
}.

Record Object : Type := {
  object_meta : ObjectMeta;
  Spec : PackageSpec;
  Status : PackageStatus
}.

(** [obj.Spec.Package = pkg] *)
Definition set_Package (obj : Object) (pkg : string) : Object :=
  {| object_meta := object_meta obj;
     Spec := {| Package := pkg; spec_rest := spec_rest (Spec obj) |};
     Status := Status obj |}.

Variables RestConfig Clientset : Type.

(** Constants of the package and of the API groups, declared outside this
    file. *)
Variables errKubeConfig errKubeClient : string.
Variables ConfigurationGroupKind ProviderGroupKind FunctionGroupKind : string.

(** A key or a value handed to the logger. *)
Inductive LogValue : Type :=
| LogString (s : string)
| LogError (err : option error).

Definition Logger : Type := list LogValue.

Definition WithValues (l : Logger) (kvs : list LogValue) : Logger := l ++ kvs.

Record Env : Type := {
  ctrl_GetConfig : result RestConfig;
  NewForConfig : ClientPackage -> RestConfig -> result Clientset;
  client_Get : Resource -> Clientset -> string -> result Object;
  name_ParseReference : string -> result Name.Reference;
  json_Marshal : Object -> result bytes;
  client_Patch :
    Resource -> Clientset -> string -> PatchType -> bytes -> result Object;
  GetName : Object -> string;
  strings_ToLower : string -> string;
  fmt_Fprintf : string -> option error
}.

Inductive Event : Type :=
| EvDebug (l : Logger) (msg : string) (kvs : list LogValue)
| EvGetConfig (r : result RestConfig)
| EvNewForConfig (p : ClientPackage) (cfg : RestConfig) (r : result Clientset)
| EvGet (res : Resource) (name : string) (r : result Object)
| EvParseReference (s : string) (r : result Name.Reference)
| EvMarshal (obj : Object) (r : result bytes)
| EvPatch (res : Resource) (name : string) (pt : PatchType) (data : bytes)
    (r : result Object)
| EvWarnIfNotFound (err : error) (warned : bool) (r : option error)
| EvFprintf (s : string) (err : option error).

Record World : Type := { trace : list Event }.

Definition start : World := {| trace := [] |}.

Definition emit {A} (a : A) (e : Event) : M World A :=
  fun w => (Continue a, {| trace := trace w ++ [e] |}).

Variable env : Env.

(** [warnIfNotFound] is a helper of the package that this file does not
    hold; the commands are given it.  It tells whether it issued a warning
    and gives the error that is left. *)
Variable warnIfNotFound : error -> bool * option error.

Definition WarnIfNotFound (err : error) : M World (option error) :=
  let r := warnIfNotFound err in emit (snd r) (EvWarnIfNotFound err (fst r) (snd r)).

Definition Debug (l : Logger) (msg : string) (kvs : list LogValue) : M World unit :=
  emit tt (EvDebug l msg kvs).

Definition GetConfig : M World (result RestConfig) :=
  let r := ctrl_GetConfig env in emit r (EvGetConfig r).

Definition NewForConfig_ (p : ClientPackage) (cfg : RestConfig)
  : M World (result Clientset) :=
  let r := NewForConfig env p cfg in emit r (EvNewForConfig p cfg r).

Definition Get (res : Resource) (kube : Clientset) (name : string)
  : M World (result Object) :=
  let r := client_Get env res kube name in emit r (EvGet res name r).

Definition ParseReference (s : string) : M World (result Name.Reference) :=
  let r := name_ParseReference env s in emit r (EvParseReference s r).

Definition Marshal (obj : Object) : M World (result bytes) :=
  let r := json_Marshal env obj in emit r (EvMarshal obj r).

Definition Patch (res : Resource) (kube : Clientset) (name : string)
    (pt : PatchType) (data : bytes) : M World (result Object) :=
  let r := client_Patch env res kube name pt data in
  emit r (EvPatch res name pt data r).

(** [fmt.Fprintf(k.Stdout, "%s/%s updated\n", kind, name)] *)
Definition Fprintf_updated (kind name : string) : M World (option error) :=
  let s := (kind ++ "/" ++ name ++ " updated" ++ newline)%string in
  let err := fmt_Fprintf env s in emit err (EvFprintf s err).

(** Run runs the Configuration update cmd. *)
Definition updateConfigCmd_Run (c : updateConfigCmd) (logger : Logger) : M World unit :=
  (let logger :=
     WithValues logger [LogString "Name"; LogString (config_Name c)] in
   kubeConfig <-! GetConfig else err =>
     (Debug logger errKubeConfig [LogString "error"; LogError (Some err)] ;;
      return_ (Wrap (Some err) errKubeConfig)) ;;
   Debug logger "Found kubeconfig" [] ;;
   kube <-! NewForConfig_ clientpkgv1 kubeConfig else err =>
     (Debug logger errKubeClient [LogString "error"; LogError (Some err)] ;;
      return_ (Wrap (Some err) errKubeClient)) ;;
   Debug logger "Created kubernetes client" [] ;;
   prevConf <-! Get Configurations kube (config_Name c) else err =>
     (err <- WarnIfNotFound err ;;
      Debug logger "Failed to update configuration"
        [LogString "error"; LogError err] ;;
      return_ (Wrap err "cannot update configuration")) ;;
   Debug logger "Found previous configuration object" [] ;;
   let pkg := Package (Spec prevConf) in
   pkgReference <-! ParseReference pkg else err =>
     (err <- WarnIfNotFound err ;;
      Debug logger "Failed to update configuration"
        [LogString "error"; LogError err] ;;
      return_ (Wrap err "cannot update configuration")) ;;
   let newPkg := "" in
   let newPkg :=
     if strings_HasPrefix (config_Tag c) "sha256"
     then Name.Name (Name.Digest (Name.Context pkgReference) (config_Tag c))
     else Name.Name (Name.Tag (Name.Context pkgReference) (config_Tag c)) in
   let prevConf := set_Package prevConf newPkg in
   req <-! Marshal prevConf else err =>
     (err <- WarnIfNotFound err ;;
      Debug logger "Failed to update configuration"
        [LogString "error"; LogError err] ;;
      return_ (Wrap err "cannot update configuration")) ;;
   res <-! Patch Configurations kube (config_Name c) MergePatchType req else err =>
     (err <- WarnIfNotFound err ;;
      Debug logger "Failed to update configuration"
        [LogString "error"; LogError err] ;;
      return_ (Wrap err "cannot update configuration")) ;;
   err <- Fprintf_updated (strings_ToLower env ConfigurationGroupKind) (GetName env res) ;;
   return_ err)%go.

(** Run runs the Provider update cmd. *)
Definition updateProviderCmd_Run (c : updateProviderCmd) (logger : Logger) : M World unit :=
  (kubeConfig <-! GetConfig else err =>
     (Debug logger errKubeConfig [LogString "error"; LogError (Some err)] ;;
      return_ (Wrap (Some err) errKubeConfig)) ;;
   Debug logger "Found kubeconfig" [] ;;
   kube <-! NewForConfig_ clientpkgv1 kubeConfig else err =>
     (Debug logger errKubeClient [LogString "error"; LogError (Some err)] ;;
      return_ (Wrap (Some err) errKubeClient)) ;;
   Debug logger "Created kubernetes client" [] ;;
   preProv <-! Get Providers kube (provider_Name c) else err =>
     (err <- WarnIfNotFound err ;;
      Debug logger "Failed to update provider"
        [LogString "error"; LogError err] ;;
      return_ (Wrap err "cannot update provider")) ;;
   Debug logger "Found previous provider object" [] ;;
   let pkg := Package (Spec preProv) in
   pkgReference <-! ParseReference pkg else err =>
     (err <- WarnIfNotFound err ;;
      Debug logger "Failed to update provider"
        [LogString "error"; LogError err] ;;
      return_ (Wrap err "cannot update provider")) ;;
   let newPkg := "" in
   let newPkg :=
     if strings_HasPrefix (provider_Tag c) "sha256"
     then Name.Name (Name.Digest (Name.Context pkgReference) (provider_Tag c))
     else Name.Name (Name.Tag (Name.Context pkgReference) (provider_Tag c)) in
   let preProv := set_Package preProv newPkg in
   req <-! Marshal preProv else err =>
     (err <- WarnIfNotFound err ;;
      Debug logger "Failed to update provider"
        [LogString "error"; LogError err] ;;
      return_ (Wrap err "cannot update provider")) ;;
   res <-! Patch Providers kube (provider_Name c) MergePatchType req else err =>
     (err <- WarnIfNotFound err ;;
      Debug logger "Failed to update provider"
        [LogString "error"; LogError err] ;;
      return_ (Wrap err "cannot update provider")) ;;
   err <- Fprintf_updated (strings_ToLower env ProviderGroupKind) (GetName env res) ;;
   return_ err)%go.

(** Run runs the Function update cmd. *)
Definition updateFunctionCmd_Run (c : updateFunctionCmd) (logger : Logger) : M World unit :=
  (kubeConfig <-! GetConfig else err =>
     (Debug logger errKubeConfig [LogString "error"; LogError (Some err)] ;;
      return_ (Wrap (Some err) errKubeConfig)) ;;
   Debug logger "Found kubeconfig" [] ;;
   kube <-! NewForConfig_ clientpkgv1beta1 kubeConfig else err =>
     (Debug logger errKubeClient [LogString "error"; LogError (Some err)] ;;
      return_ (Wrap (Some err) errKubeClient)) ;;
   Debug logger "Created kubernetes client" [] ;;
   preProv <-! Get Functions kube (function_Name c) else err =>
     (err <- WarnIfNotFound err ;;
      Debug logger "Failed to update function"
        [LogString "error"; LogError err] ;;
      return_ (Wrap err "cannot update function")) ;;
   Debug logger "Found previous function object" [] ;;
   let pkg := Package (Spec preProv) in
   pkgReference <-! ParseReference pkg else err =>
     (err <- WarnIfNotFound err ;;
      Debug logger "Failed to update function"
        [LogString "error"; LogError err] ;;
      return_ (Wrap err "cannot update function")) ;;
   let newPkg := "" in
   let newPkg :=
     if strings_HasPrefix (function_Tag c) "sha256"
     then Name.Name (Name.Digest (Name.Context pkgReference) (function_Tag c))
     else Name.Name (Name.Tag (Name.Context pkgReference) (function_Tag c)) in
   let preProv := set_Package preProv newPkg in
   req <-! Marshal preProv else err =>
     (err <- WarnIfNotFound err ;;
      Debug logger "Failed to update function"
        [LogString "error"; LogError err] ;;
      return_ (Wrap err "cannot update function")) ;;
   res <-! Patch Functions kube (function_Name c) MergePatchType req else err =>
     (err <- WarnIfNotFound err ;;
      Debug logger "Failed to update function"
        [LogString "error"; LogError err] ;;
      return_ (Wrap err "cannot update function")) ;;
   err <- Fprintf_updated (strings_ToLower env FunctionGroupKind) (GetName env res) ;;
   return_ err)%go.

(** *** Reading a trace *)

Definition is_patch (e : Event) : bool :=
  match e with EvPatch _ _ _ _ _ => true | _ => false end.

Definition count (p : Event -> bool) (tr : list Event) : nat :=
  List.length (filter p tr).

(** The reference that [tag] makes of the repository of [ref]. *)
Definition retagged (ref : Name.Reference) (tag : string) : Name.Reference :=
  if strings_HasPrefix tag "sha256"
  then Name.Digest (Name.Context ref) tag
  else Name.Tag (Name.Context ref) tag.

(** Every patch sent in [tr] goes to the named object of [res] as a merge
    patch, and its body is the JSON of the object fetched before with
    nothing changed but [Spec.Package], which names the retagged
    reference. *)
Definition patches_only_package (res : Resource) (name tag : string)
    (tr : list Event) : Prop :=
  forall res' name' pt data r,
    In (EvPatch res' name' pt data r) tr ->
    res' = res /\ name' = name /\ pt = MergePatchType /\
    exists prev ref patched,
      In (EvGet res name (inl prev)) tr /\
      name_ParseReference env (Package (Spec prev)) = inl ref /\
      json_Marshal env patched = inl data /\
      Package (Spec patched) = Name.Name (retagged ref tag) /\
      Name.is_digest (retagged ref tag) = strings_HasPrefix tag "sha256" /\
      object_meta patched = object_meta prev /\
      spec_rest (Spec patched) = spec_rest (Spec prev) /\
      Status patched = Status prev.

(** A command that reports the update has sent one patch, which the server
    accepted. *)
Definition reported_after_one_patch (tr : list Event) : Prop :=
  forall s err,
    In (EvFprintf s err) tr ->
    count is_patch tr = 1 /\
    exists res name pt data obj, In (EvPatch res name pt data (inl obj)) tr.

(** A run that updated the named object of [res]: it fetched the object,
    sent one patch, a merge patch to that object whose body is the JSON of
    the fetched object with nothing changed but [Spec.Package], which names
    the retagged reference; the server accepted the patch and the update
    was printed. *)
Definition updated (res : Resource) (name tag : string) (tr : list Event)
  : Prop :=
  count is_patch tr = 1 /\
  exists prev ref patched data obj line,
    In (EvGet res name (inl prev)) tr /\
    name_ParseReference env (Package (Spec prev)) = inl ref /\
    json_Marshal env patched = inl data /\
    Package (Spec patched) = Name.Name (retagged ref tag) /\
    Name.is_digest (retagged ref tag) = strings_HasPrefix tag "sha256" /\
    object_meta patched = object_meta prev /\
    spec_rest (Spec patched) = spec_rest (Spec prev) /\
    Status patched = Status prev /\
    In (EvPatch res name MergePatchType data (inl obj)) tr /\
    In (EvFprintf line None) tr.

(** A run that ended on an error of which [warnIfNotFound] left nothing:
    no patch was accepted and nothing was printed. *)
Definition excused (tr : list Event) : Prop :=
  (exists e warned,
      snd (warnIfNotFound e) = None /\
      In (EvWarnIfNotFound e warned None) tr) /\
  (forall res name pt data obj,
      ~ In (EvPatch res name pt data (inl obj)) tr) /\
  (forall line err, ~ In (EvFprintf line err) tr).

End Run.

Arguments EvDebug {ObjectMeta SpecRest PackageStatus RestConfig Clientset}.
Arguments EvGetConfig {ObjectMeta SpecRest PackageStatus RestConfig Clientset}.
Arguments EvNewForConfig {ObjectMeta SpecRest PackageStatus RestConfig Clientset}.
Arguments EvGet {ObjectMeta SpecRest PackageStatus RestConfig Clientset}.
Arguments EvParseReference {ObjectMeta SpecRest PackageStatus RestConfig Clientset}.
Arguments EvMarshal {ObjectMeta SpecRest PackageStatus RestConfig Clientset}.
Arguments EvPatch {ObjectMeta SpecRest PackageStatus RestConfig Clientset}.
Arguments EvWarnIfNotFound {ObjectMeta SpecRest PackageStatus RestConfig Clientset}.
Arguments EvFprintf {ObjectMeta SpecRest PackageStatus RestConfig Clientset}.
Arguments trace {ObjectMeta SpecRest PackageStatus RestConfig Clientset}.
Arguments start {ObjectMeta SpecRest PackageStatus RestConfig Clientset}.
Arguments Package {SpecRest}.
Arguments spec_rest {SpecRest}.
Arguments object_meta {ObjectMeta SpecRest PackageStatus}.
Arguments Spec {ObjectMeta SpecRest PackageStatus}.
Arguments Status {ObjectMeta SpecRest PackageStatus}.
Arguments set_Package {ObjectMeta SpecRest PackageStatus}.
Arguments is_patch {ObjectMeta SpecRest PackageStatus RestConfig Clientset}.
Arguments count {ObjectMeta SpecRest PackageStatus RestConfig Clientset}.
Arguments updateConfigCmd_Run {ObjectMeta SpecRest PackageStatus RestConfig Clientset}.
Arguments updateProviderCmd_Run {ObjectMeta SpecRest PackageStatus RestConfig Clientset}.
Arguments updateFunctionCmd_Run {ObjectMeta SpecRest PackageStatus RestConfig Clientset}.
Arguments patches_only_package {ObjectMeta SpecRest PackageStatus RestConfig Clientset}.
Arguments reported_after_one_patch {ObjectMeta SpecRest PackageStatus RestConfig Clientset}.
Arguments updated {ObjectMeta SpecRest PackageStatus RestConfig Clientset}.
Arguments excused {ObjectMeta SpecRest PackageStatus RestConfig Clientset}.

(** Modelled from the spec: [warnIfNotFound], a helper of package xpkg that
    is not under src/.  The spec has a not-found condition when reading a
    prior object downgraded to a warning rather than a hard error: for a
    not-found error the helper warns and leaves no error, and any other
    error it passes on.  [IsNotFound] is the test of the Kubernetes API
    errors for a not-found status. *)
Definition warnIfNotFound_spec (IsNotFound : error -> bool) (err : error)
  : bool * option error :=
  if IsNotFound err then (true, None) else (false, Some err).

(** Unfolding a command and splitting on the calls that decide its path. *)
Ltac xrun_open H :=
  cbv beta iota zeta delta
    [call updateConfigCmd_Run updateProviderCmd_Run updateFunctionCmd_Run
     bind ret return_ emit start Debug GetConfig NewForConfig_ Get
     ParseReference Marshal Patch Fprintf_updated WarnIfNotFound]
    in H;
  cbv beta iota zeta delta [fst snd trace app] in H.

(** The new package name is kept as one named value while the path is
    split. *)
Ltac name_newPkg H :=
  try match type of H with
      | context [if strings_HasPrefix ?t ?p then ?a else ?b] =>
          let newPkg := fresh "newPkg" in
          set (newPkg := if strings_HasPrefix t p then a else b) in *
      end.

Ltac xrun_step H :=
  match type of H with
  | context [match ?x with _ => _ end] =>
      lazymatch x with
      | context [match _ with _ => _ end] => fail
      | strings_HasPrefix _ _ => fail
      | _ =>
          destruct x eqn:?;
          cbv beta iota zeta delta [fst snd trace app] in H;
          name_newPkg H
      end
  end.

Ltac xrun_cases H :=
  xrun_open H; repeat xrun_step H;
  apply pair_equal_spec in H; destruct H as [? ?]; subst.

(** *** Sample runs

    A cluster that holds the provider [provider-x] at tag [v1.0.0]; the
    parameter is the answer to fetching it. *)

Definition sample_object : Object unit unit unit :=
  {| object_meta := tt;
     Spec := {| Package := "xpkg.example/provider-x:v1.0.0"; spec_rest := tt |};
     Status := tt |}.

Definition sample_reference : Name.Reference :=
  Name.Tag {| Name.Repository_Name := "xpkg.example/provider-x" |} "v1.0.0".

Definition sample_env (get : result (Object unit unit unit))
  : Env unit unit unit unit unit :=
  {| ctrl_GetConfig := inl tt;
     NewForConfig := fun _ _ => inl tt;
     client_Get := fun _ _ _ => get;
     name_ParseReference := fun _ => inl sample_reference;
     json_Marshal := fun obj => inl (list_byte_of_string (Package (Spec obj)));
     client_Patch := fun _ _ _ _ _ => inl sample_object;
     GetName := fun _ => "provider-x";
     strings_ToLower := fun s => s;
     fmt_Fprintf := fun _ => None |}.

Definition cluster : Env unit unit unit unit unit := sample_env (inl sample_object).

Definition cluster_without_object : Env unit unit unit unit unit :=
  sample_env (inr (Cause "providers.pkg.crossplane.io provider-x not found")).

Definition sample_update : updateProviderCmd :=
  {| provider_Name := "provider-x"; provider_Tag := "sha256:0a1b2c" |}.

(** A helper that hands every error back without a warning. *)
Definition pass_on (err : error) : bool * option error := (false, Some err).

(** The provider command on the sample cluster with a given helper. *)
Definition sample_provider_run (warn : error -> bool * option error)
    (e : Env unit unit unit unit unit)
  : option error * World unit unit unit unit unit :=
  call (updateProviderCmd_Run "cannot get kubeconfig" "cannot create client"
          "provider.pkg.crossplane.io" e warn sample_update [])
       start.

End Xpkg.

(** ** The binary encoding of the envelope

    Modelled from the spec: the spec calls the envelope binary-encoded and
    lists the fields of a Request and of a Response; the generated
    marshalling code of [apis/apiextensions/fn/proto/v1alpha1] is not under
    src/.  What follows is the protobuf wire format for those fields: base
    128 varints, a key made of field number and wire type before each
    field, and length-delimited strings, bytes and sub-messages. *)

Module Wire.

Definition byte_of_N (n : N) : Byte.byte :=
  match Byte.of_N n with
  | Some b => b
  | None => Byte.x00
  end.

(** Modelled from the spec: the base 128 varint of [n], low group first,
    with the high bit set on every byte but the last. *)
Fixpoint varint_fuel (fuel : nat) (n : N) : bytes :=
  match fuel with
  | O => []
  | S fuel' =>
      if (n <? 128)%N then [byte_of_N n]
      else byte_of_N (128 + n mod 128) :: varint_fuel fuel' (n / 128)
  end.

Definition encode_varint (n : N) : bytes :=
  varint_fuel (S (N.to_nat (N.size n))) n.

(** Modelled from the spec: reads one varint off the front of [bs]. *)
Fixpoint decode_varint (bs : bytes) : option (N * bytes) :=
  match bs with
  | [] => None
  | b :: rest =>
      let v := Byte.to_N b in
      if (v <? 128)%N then Some (v, rest)
      else
        match decode_varint rest with
        | Some (hi, rest') => Some (v - 128 + 128 * hi, rest')%N
        | None => None
        end
  end.

(** The two wire types the envelope uses. *)
Inductive value : Type :=
| Varint (n : N)
| Bytes (bs : bytes).

Definition field : Type := (N * value)%type.

Definition wire_type (v : value) : N :=
  match v with
  | Varint _ => 0
  | Bytes _ => 2
  end.

Definition encode_value (v : value) : bytes :=
  match v with
  | Varint n => encode_varint n
  | Bytes bs => encode_varint (N.of_nat (List.length bs)) ++ bs
  end.

Definition encode_field (f : field) : bytes :=
  encode_varint (fst f * 8 + wire_type (snd f)) ++ encode_value (snd f).

Definition encode_fields (fs : list field) : bytes := flat_map encode_field fs.

(** Modelled from the spec: reads fields until the input ends; a key with
    another wire type, a cut varint or a length beyond the input is an
    error. *)
Fixpoint decode_fields_fuel (fuel : nat) (bs : bytes) : option (list field) :=
  match fuel with
  | O => None
  | S fuel' =>
      match bs with
      | [] => Some []
      | _ =>
          match decode_varint bs with
          | None => None
          | Some (key, rest) =>
              let num := (key / 8)%N in
              match (key mod 8)%N with
              | 0%N =>
                  match decode_varint rest with
                  | None => None
                  | Some (n, rest') =>
                      option_map (cons (num, Varint n))
                        (decode_fields_fuel fuel' rest')
                  end
              | 2%N =>
                  match decode_varint rest with
                  | None => None
                  | Some (len, rest') =>
                      if (N.to_nat len <=? List.length rest')%nat then
                        option_map
                          (cons (num, Bytes (firstn (N.to_nat len) rest')))
                          (decode_fields_fuel fuel' (skipn (N.to_nat len) rest'))
                      else None
                  end
              | _ => None
              end
          end
      end
  end.

Definition decode_fields (bs : bytes) : option (list field) :=
  decode_fields_fuel (S (List.length bs)) bs.

(** Two's complement: an [int64] as the [uint64] that is written, and
    back; [int32] fields are written sign-extended and read back from the
    low 32 bits. *)
Definition u64 (z : Z) : N := Z.to_N (z mod 2 ^ 64).

Definition s64 (n : N) : Z :=
  let z := (Z.of_N n mod 2 ^ 64)%Z in
  if (z <? 2 ^ 63)%Z then z else (z - 2 ^ 64)%Z.

Definition s32 (n : N) : Z :=
  let z := (Z.of_N n mod 2 ^ 32)%Z in
  if (z <? 2 ^ 31)%Z then z else (z - 2 ^ 32)%Z.

Definition is_int64 (z : Z) : Prop := (- 2 ^ 63 <= z < 2 ^ 63)%Z.
Definition is_int32 (z : Z) : Prop := (- 2 ^ 31 <= z < 2 ^ 31)%Z.

(** Linear arithmetic with division and remainder by constants. *)
Ltac ediv_lia := zify; Z.to_euclidean_division_equations; lia.

End Wire.

(** ** The messages on the wire

    Modelled from the spec: the fields the spec gives a Request (image
    reference string, pull configuration with its policy and credentials,
    input payload bytes, run configuration with the optional timeout) and a
    Response (output payload bytes), numbered in that order and written as
    proto3 writes them: a string, a byte sequence or a number that has its
    zero value is left out, and a sub-message is written when it is
    present.  The generated code of the message types is not under src/. *)

Module Envelope.
Import Wire.

(** A message type: its fields on the wire, how read fields are merged
    into a message, and the message with every field unset. *)
Class Message (A : Type) : Type := {
  fields_of : A -> list field;
  merge : list field -> A -> option A;
  zero : A
}.

(** Modelled from the spec: the binary encoding of a message,
    [proto.Marshal], as the fields of the message written one after the
    other. *)
Definition Marshal {A} `{Message A} (m : A) : bytes := encode_fields (fields_of m).

(** Modelled from the spec: the decoding of a message, [proto.Unmarshal]:
    the fields are read off the bytes and merged into the empty message. *)
Definition Unmarshal {A} `{Message A} (b : bytes) : option A :=
  match decode_fields b with
  | Some fs => merge fs zero
  | None => None
  end.

Definition bytes_field (num : N) (bs : bytes) : list field :=
  match bs with
  | [] => []
  | _ => [(num, Bytes bs)]
  end.

Definition int_field (num : N) (z : Z) : list field :=
  if (z =? 0)%Z then [] else [(num, Varint (u64 z))].

Definition message_field {A} `{Message A} (num : N) (m : option A) : list field :=
  match m with
  | None => []
  | Some x => [(num, Bytes (Marshal x))]
  end.

(** *** [google.protobuf.Duration] *)

(** Modelled from the spec: the timeout on the wire, seconds as field 1
    and nanoseconds as field 2. *)
Definition Duration_fields (d : Duration) : list field :=
  int_field 1 (Seconds d) ++ int_field 2 (Nanos d).

Fixpoint Duration_merge (fs : list field) (acc : Duration) : option Duration :=
  match fs with
  | [] => Some acc
  | (1%N, Varint n) :: fs' =>
      Duration_merge fs' {| Seconds := s64 n; Nanos := Nanos acc |}
  | (2%N, Varint n) :: fs' =>
      Duration_merge fs' {| Seconds := Seconds acc; Nanos := s32 n |}
  | (1%N, Bytes _) :: _ | (2%N, Bytes _) :: _ => None
  | _ :: fs' => Duration_merge fs' acc
  end.

#[export] Instance Duration_Message : Message Duration := {
  fields_of := Duration_fields;
  merge := Duration_merge;
  zero := {| Seconds := 0; Nanos := 0 |}
}.

(** *** The pull configuration *)

(** Modelled from the spec: the pull configuration on the wire, the policy
    as field 1 and the credentials as field 2. *)
Definition ImagePullConfig_fields (p : ImagePullConfig) : list field :=
  int_field 1 (PullPolicy p) ++ bytes_field 2 (Auth p).

Fixpoint ImagePullConfig_merge (fs : list field) (acc : ImagePullConfig)
  : option ImagePullConfig :=
  match fs with
  | [] => Some acc
  | (1%N, Varint n) :: fs' =>
      ImagePullConfig_merge fs' {| PullPolicy := s32 n; Auth := Auth acc |}
  | (2%N, Bytes bs) :: fs' =>
      ImagePullConfig_merge fs' {| PullPolicy := PullPolicy acc; Auth := bs |}
  | (1%N, Bytes _) :: _ | (2%N, Varint _) :: _ => None
  | _ :: fs' => ImagePullConfig_merge fs' acc
  end.

#[export] Instance ImagePullConfig_Message : Message ImagePullConfig := {
  fields_of := ImagePullConfig_fields;
  merge := ImagePullConfig_merge;
  zero := {| PullPolicy := 0; Auth := [] |}
}.

(** *** The run configuration *)

(** Modelled from the spec: the run configuration on the wire, with the
    timeout as its sub-message. *)
Definition RunFunctionConfig_fields (c : RunFunctionConfig) : list field :=
  message_field 3 (Timeout c).

Fixpoint RunFunctionConfig_merge (fs : list field) (acc : RunFunctionConfig)
  : option RunFunctionConfig :=
  match fs with
  | [] => Some acc
  | (3%N, Bytes bs) :: fs' =>
      match Unmarshal (A := Duration) bs with
      | Some d => RunFunctionConfig_merge fs' {| Timeout := Some d |}
      | None => None
      end
  | (3%N, Varint _) :: _ => None
  | _ :: fs' => RunFunctionConfig_merge fs' acc
  end.

#[export] Instance RunFunctionConfig_Message : Message RunFunctionConfig := {
  fields_of := RunFunctionConfig_fields;
  merge := RunFunctionConfig_merge;
  zero := {| Timeout := None |}
}.

(** *** Request and Response *)

(** Modelled from the spec: a Request on the wire: image reference, input
    payload, pull configuration and run configuration, as fields 1 to 4. *)
Definition RunFunctionRequest_fields (r : RunFunctionRequest) : list field :=
  bytes_field 1 (list_byte_of_string (GetImage r)) ++
  bytes_field 2 (GetInput r) ++
  message_field 3 (GetImagePullConfig r) ++
  message_field 4 (GetRunFunctionConfig r).

Fixpoint RunFunctionRequest_merge (fs : list field) (acc : RunFunctionRequest)
  : option RunFunctionRequest :=
  match fs with
  | [] => Some acc
  | (1%N, Bytes bs) :: fs' =>
      RunFunctionRequest_merge fs'
        {| GetImage := string_of_list_byte bs;
           GetInput := GetInput acc;
           GetImagePullConfig := GetImagePullConfig acc;
           GetRunFunctionConfig := GetRunFunctionConfig acc |}
  | (2%N, Bytes bs) :: fs' =>
      RunFunctionRequest_merge fs'
        {| GetImage := GetImage acc;
           GetInput := bs;
           GetImagePullConfig := GetImagePullConfig acc;
           GetRunFunctionConfig := GetRunFunctionConfig acc |}
  | (3%N, Bytes bs) :: fs' =>
      match Unmarshal (A := ImagePullConfig) bs with
      | Some p =>
          RunFunctionRequest_merge fs'
            {| GetImage := GetImage acc;
               GetInput := GetInput acc;
               GetImagePullConfig := Some p;
               GetRunFunctionConfig := GetRunFunctionConfig acc |}
      | None => None
      end
  | (4%N, Bytes bs) :: fs' =>
      match Unmarshal (A := RunFunctionConfig) bs with
      | Some c =>
          RunFunctionRequest_merge fs'
            {| GetImage := GetImage acc;
               GetInput := GetInput acc;
               GetImagePullConfig := GetImagePullConfig acc;
               GetRunFunctionConfig := Some c |}
      | None => None
      end
  | (1%N, Varint _) :: _ | (2%N, Varint _) :: _
  | (3%N, Varint _) :: _ | (4%N, Varint _) :: _ => None
  | _ :: fs' => RunFunctionRequest_merge fs' acc
  end.

#[export] Instance RunFunctionRequest_Message : Message RunFunctionRequest := {
  fields_of := RunFunctionRequest_fields;
  merge := RunFunctionRequest_merge;
  zero := {| GetImage := ""; GetInput := [];
             GetImagePullConfig := None; GetRunFunctionConfig := None |}
}.

(** Modelled from the spec: a Response on the wire: the output payload as
    field 1. *)
Definition RunFunctionResponse_fields (r : RunFunctionResponse) : list field :=
  bytes_field 1 (Output r).

Fixpoint RunFunctionResponse_merge (fs : list field) (acc : RunFunctionResponse)
  : option RunFunctionResponse :=
  match fs with
  | [] => Some acc
  | (1%N, Bytes bs) :: fs' => RunFunctionResponse_merge fs' {| Output := bs |}
  | (1%N, Varint _) :: _ => None
  | _ :: fs' => RunFunctionResponse_merge fs' acc
  end.

#[export] Instance RunFunctionResponse_Message : Message RunFunctionResponse := {
  fields_of := RunFunctionResponse_fields;
  merge := RunFunctionResponse_merge;
  zero := {| Output := [] |}
}.

(** *** Values that the Go types can hold *)

Definition Duration_in_range (d : Duration) : Prop :=
  is_int64 (Seconds d) /\ is_int32 (Nanos d).

Definition RunFunctionConfig_in_range (c : RunFunctionConfig) : Prop :=
  match Timeout c with
  | Some d => Duration_in_range d
  | None => True
  end.

Definition Request_in_range (r : RunFunctionRequest) : Prop :=
  match GetImagePullConfig r with
  | Some p => is_int32 (PullPolicy p)
  | None => True
  end /\
  match GetTimeout (GetRunFunctionConfig r) with
  | Some d => Duration_in_range d
  | None => True
  end.

(** A message type whose merge reads back the fields it writes, for the
    messages that satisfy [ok]. *)
Definition reads_back {A} `{Message A} (ok : A -> Prop) : Prop :=
  forall m, ok m -> merge (fields_of m) zero = Some m.

(** A request as the spec's end-to-end scenario sends it: image
    [registry.example/fn:v1], input [{}], timeout 5 seconds. *)
Definition scenario_request : RunFunctionRequest :=
  {| GetImage := "registry.example/fn:v1";
     GetInput := [Byte.x7b; Byte.x7d];
     GetImagePullConfig := Some {| PullPolicy := 2; Auth := [Byte.x41; Byte.x42] |};
     GetRunFunctionConfig :=
       Some {| Timeout := Some {| Seconds := 5; Nanos := 0 |} |} |}.

End Envelope.

From Stdlib Require Import Sorted.

(** ** Strictly increasing lists of places *)

(** Each number of [l] is below the next one. *)
Fixpoint increasing (l : list nat) : bool :=
  match l with
  | [] => true
  | a :: l' =>
      match l' with
      | [] => true
      | b :: _ => (a <? b)%nat && increasing l'
      end
  end.

(** ** More ways to read a trace of [Spark.Run] *)

Module SparkTrace.
Import Spark.

Section Reading.
Variables Reference v1Image Bundle DigestStore : Type.
Local Abbreviation Event := (Event Reference v1Image Bundle DigestStore).
Local Abbreviation Env := (Env Reference v1Image Bundle DigestStore).

Definition is_cancel (e : Event) : bool :=
  match e with EvCancel _ => true | _ => false end.

(** Giving back what the run holds: the Bundle and the context. *)
Definition is_release (e : Event) : bool :=
  match e with
  | EvCleanup _ _ | EvCancel _ => true
  | _ => false
  end.

(** The error that a logged call returned, if it returned one. *)
Definition error_of (e : Event) : option error :=
  match e with
  | EvReadAll (inr err) | EvUnmarshal _ (inr err) | EvNewDigest _ (inr err)
  | EvParseReference _ (inr err) | EvImage _ _ _ _ (inr err)
  | EvBundle _ _ _ _ (inr err) | EvMarshal _ (inr err) => Some err
  | EvNewCachingBundler _ err | EvMkdirAll _ _ err | EvCleanup _ err
  | EvWrite _ _ err => err
  | EvOutput _ child => child_err child
  | _ => None
  end.

(** The error string under which [Run] reports the failure of a step. *)
Definition message_of (s : Step) : string :=
  match s with
  | ReadRequest => errReadRequest
  | DecodeRequest => errUnmarshalRequest
  | BundlerConstruction => errNewBundleStore
  | DigestStoreCreation => errNewDigestStore
  | ReferenceParse => errParseRef
  | Pull => errPull
  | Bundling => errBundleFn
  | RuntimeRootCreation => errMkRuntimeRootdir
  | Execution => errRuntime
  | BundleCleanup => errCleanupBundle
  | EncodeResponse => errMarshalResponse
  | WriteResponse => errWriteResponse
  end.

(** The first call of a trace that failed: its step and its error. *)
Fixpoint first_failure (tr : list Event) : option (Step * error) :=
  match tr with
  | [] => None
  | e :: tr' =>
      match failed e, error_of e with
      | Some s, Some err => Some (s, err)
      | _, _ => first_failure tr'
      end
  end.

(** What a trace holds after its first failed call. *)
Fixpoint after_first_failure (tr : list Event) : list Event :=
  match tr with
  | [] => []
  | e :: tr' =>
      match failed e with
      | Some _ => tr'
      | None => after_first_failure tr'
      end
  end.

(** The place of a call in the text of [Run]. *)
Definition rank (e : Event) : nat :=
  match e with
  | EvReadAll _ => 0
  | EvUnmarshal _ _ => 1
  | EvWithTimeout _ => 2
  | EvNewString _ => 3
  | EvNewBundler _ => 4
  | EvSupported _ _ => 5
  | EvNewCachingBundler _ _ => 6
  | EvNewDigest _ _ => 7
  | EvParseReference _ _ => 8
  | EvImage _ _ _ _ _ => 9
  | EvBundle _ _ _ _ _ => 10
  | EvMkdirAll _ _ _ => 11
  | EvOutput _ _ => 12
  | EvCleanup _ _ => 13
  | EvMarshal _ _ => 14
  | EvWrite _ _ _ => 15
  | EvCancel _ => 16
  end.

(** A call of the run of [c] on the request [req] gets what the calls
    before it produced: every store is rooted at the cache directory, the
    reference parsed is the request's image, the pull is made by a puller
    over the digest store of this run, for a reference that the parse
    returned and with the request's pull configuration, the image bundled
    is one that the pull returned, under the run identifier, and the
    runtime root is made at [Join(cache dir, "runtime")] with mode 0700. *)
Definition wired (env : Env) (c : Command) (req : RunFunctionRequest)
    (tr : list Event) (e : Event) : Prop :=
  match e with
  | EvNewBundler root | EvSupported root _ | EvNewCachingBundler root _
  | EvNewDigest root _ => root = CacheDir c
  | EvParseReference s _ => s = GetImage req
  | EvImage p _ ref cfg _ =>
      In (EvNewDigest (CacheDir c) (inl (puller_digest _ p))) tr /\
      puller_image_store _ p = CacheDir c /\
      In (EvParseReference (GetImage req) (inl ref)) tr /\
      cfg = GetImagePullConfig req
  | EvBundle _ ctx img id _ =>
      (exists p ref cfg, In (EvImage p ctx ref cfg (inl img)) tr) /\
      id = uuid_NewString _ _ _ _ env
  | EvMkdirAll path perm _ =>
      path = filepath_Join _ _ _ _ env (CacheDir c) ociRuntimeRoot /\
      perm = 448%N
  | _ => True
  end.

End Reading.

Arguments is_cancel {Reference v1Image Bundle DigestStore}.
Arguments is_release {Reference v1Image Bundle DigestStore}.
Arguments error_of {Reference v1Image Bundle DigestStore}.
Arguments first_failure {Reference v1Image Bundle DigestStore}.
Arguments after_first_failure {Reference v1Image Bundle DigestStore}.
Arguments rank {Reference v1Image Bundle DigestStore}.
Arguments wired {Reference v1Image Bundle DigestStore}.

(** *** One more sample host *)

(** A request whose timeout is one second and a half below zero. *)
Definition overdue_request : RunFunctionRequest :=
  {| GetImage := "registry.example/fn:v1";
     GetInput := [Byte.x7b; Byte.x7d];
     GetImagePullConfig := None;
     GetRunFunctionConfig :=
       Some {| Timeout := Some {| Seconds := -1; Nanos := -500000000 |} |} |}.

(** The host of [all_succeed], reading [overdue_request] from its input. *)
Definition overdue : Env unit unit unit unit :=
  {| io_ReadAll_Stdin := inl [Byte.x0a];
     proto_Unmarshal := fun _ => inl overdue_request;
     uuid_NewString := uuid_NewString _ _ _ _ all_succeed;
     overlay_Supported := overlay_Supported _ _ _ _ all_succeed;
     overlay_NewCachingBundler := overlay_NewCachingBundler _ _ _ _ all_succeed;
     store_NewDigest := store_NewDigest _ _ _ _ all_succeed;
     name_ParseReference := name_ParseReference _ _ _ _ all_succeed;
     CachingPuller_Image := CachingPuller_Image _ _ _ _ all_succeed;
     Bundler_Bundle := Bundler_Bundle _ _ _ _ all_succeed;
     filepath_Join := filepath_Join _ _ _ _ all_succeed;
     os_MkdirAll := os_MkdirAll _ _ _ _ all_succeed;
     Bundle_Path := Bundle_Path _ _ _ _ all_succeed;
     Cmd_Run := Cmd_Run _ _ _ _ all_succeed;
     Bundle_Cleanup := Bundle_Cleanup _ _ _ _ all_succeed;
     proto_Marshal := proto_Marshal _ _ _ _ all_succeed;
     Stdout_Write := Stdout_Write _ _ _ _ all_succeed |}.

End SparkTrace.

(** ** More ways to read a trace of an update command *)

Module XpkgTrace.
Import Xpkg.

Section Reading.
Variables ObjectMeta SpecRest PackageStatus RestConfig Clientset : Type.
Local Abbreviation Event :=
  (Event ObjectMeta SpecRest PackageStatus RestConfig Clientset).
Variable env : Env ObjectMeta SpecRest PackageStatus RestConfig Clientset.

Definition is_debug (e : Event) : bool :=
  match e with EvDebug _ _ _ => true | _ => false end.

Definition is_client (e : Event) : bool :=
  match e with EvNewForConfig _ _ _ => true | _ => false end.

Definition is_get (e : Event) : bool :=
  match e with EvGet _ _ _ => true | _ => false end.

Definition is_helper (e : Event) : bool :=
  match e with EvWarnIfNotFound _ _ _ => true | _ => false end.

Definition is_print (e : Event) : bool :=
  match e with EvFprintf _ _ => true | _ => false end.

(** The error of a failed call to the cluster, to the reference parser or
    to the JSON encoder. *)
Definition update_error (e : Event) : option error :=
  match e with
  | EvGet _ _ (inr err) | EvParseReference _ (inr err) | EvMarshal _ (inr err)
  | EvPatch _ _ _ _ (inr err) => Some err
  | _ => None
  end.

(** The place of a call in the text of a command; the helper and the
    report both come last, on the two ways out. *)
Definition rank (e : Event) : nat :=
  match e with
  | EvDebug _ _ _ => 0
  | EvGetConfig _ => 1
  | EvNewForConfig _ _ _ => 2
  | EvGet _ _ _ => 3
  | EvParseReference _ _ => 4
  | EvMarshal _ _ => 5
  | EvPatch _ _ _ _ _ => 6
  | EvWarnIfNotFound _ _ _ => 7
  | EvFprintf _ _ => 7
  end.

(** Nothing was asked of the cluster, the helper was not called and
    nothing was printed. *)
Definition untouched (tr : list Event) : Prop :=
  count is_get tr = 0 /\ count is_patch tr = 0 /\
  count is_helper tr = 0 /\ count is_print tr = 0.

(** A command that cannot get the kubeconfig or make the client returns
    that error under the package's message and leaves the cluster
    untouched. *)
Definition stops_without_client (errKubeConfig errKubeClient : string)
    (res : option error) (tr : list Event) : Prop :=
  (forall e,
      In (EvGetConfig (inr e)) tr ->
      res = Some (WithMessage e errKubeConfig) /\
      untouched tr /\ count is_client tr = 0) /\
  (forall p cfg e,
      In (EvNewForConfig p cfg (inr e)) tr ->
      res = Some (WithMessage e errKubeClient) /\ untouched tr).

(** Every failed fetch, parse, encoding or patch is handed to the helper,
    once; the command returns what the helper leaves under [msg] and
    prints nothing.  The helper is called on nothing else. *)
Definition helper_decides (warn : error -> bool * option error) (msg : string)
    (res : option error) (tr : list Event) : Prop :=
  (forall ev e,
      In ev tr -> update_error ev = Some e ->
      In (EvWarnIfNotFound e (fst (warn e)) (snd (warn e))) tr /\
      res = Wrap (snd (warn e)) msg /\
      count is_print tr = 0) /\
  (forall e b r,
      In (EvWarnIfNotFound e b r) tr ->
      count is_helper tr = 1 /\
      exists ev, In ev tr /\ update_error ev = Some e).

(** The command makes the client of package [p], and asks the cluster only
    for the object [name] of [r]: one fetch at most, one patch at most, and
    no patch when the fetch, the parse or the encoding failed. *)
Definition touches_only (r : Resource) (p : ClientPackage) (name : string)
    (tr : list Event) : Prop :=
  (forall p' cfg x, In (EvNewForConfig p' cfg x) tr -> p' = p) /\
  (forall r' n x, In (EvGet r' n x) tr -> r' = r /\ n = name) /\
  (forall r' n pt data x, In (EvPatch r' n pt data x) tr -> r' = r /\ n = name) /\
  (count is_get tr <= 1)%nat /\ (count is_patch tr <= 1)%nat /\
  (forall ev e,
      In ev tr -> update_error ev = Some e -> is_patch ev = false ->
      count is_patch tr = 0).

(** The command prints one line, after the patch was accepted: the
    lower-cased group kind [gk], a slash, the name of the object that the
    server returned, and [updated]; what the command returns is the error
    of that print, as it is. *)
Definition reports (gk : string) (res : option error) (tr : list Event) : Prop :=
  forall line err,
    In (EvFprintf line err) tr ->
    res = err /\ count is_print tr = 1 /\ count is_helper tr = 0 /\
    exists r name pt data obj,
      In (EvPatch r name pt data (inl obj)) tr /\
      line = (strings_ToLower _ _ _ _ _ env gk ++ "/" ++
              GetName _ _ _ _ _ env obj ++ " updated" ++ newline)%string.

(** Every debug line of the run was written with the logger [l]. *)
Definition logs_with (l : Logger) (tr : list Event) : Prop :=
  forall l' msg kvs, In (EvDebug l' msg kvs) tr -> l' = l.

End Reading.

Arguments is_debug {ObjectMeta SpecRest PackageStatus RestConfig Clientset}.
Arguments is_client {ObjectMeta SpecRest PackageStatus RestConfig Clientset}.
Arguments is_get {ObjectMeta SpecRest PackageStatus RestConfig Clientset}.
Arguments is_helper {ObjectMeta SpecRest PackageStatus RestConfig Clientset}.
Arguments is_print {ObjectMeta SpecRest PackageStatus RestConfig Clientset}.
Arguments update_error {ObjectMeta SpecRest PackageStatus RestConfig Clientset}.
Arguments rank {ObjectMeta SpecRest PackageStatus RestConfig Clientset}.
Arguments untouched {ObjectMeta SpecRest PackageStatus RestConfig Clientset}.
Arguments stops_without_client {ObjectMeta SpecRest PackageStatus RestConfig Clientset}.
Arguments helper_decides {ObjectMeta SpecRest PackageStatus RestConfig Clientset}.
Arguments touches_only {ObjectMeta SpecRest PackageStatus RestConfig Clientset}.
Arguments reports {ObjectMeta SpecRest PackageStatus RestConfig Clientset}.
Arguments logs_with {ObjectMeta SpecRest PackageStatus RestConfig Clientset}.

(** *** More sample clusters *)

(** No kubeconfig can be found. *)
Definition no_kubeconfig : Env unit unit unit unit unit :=
  {| ctrl_GetConfig := inr (Cause "no kubeconfig");
     NewForConfig := fun _ _ => inl tt;
     client_Get := fun _ _ _ => inl sample_object;
     name_ParseReference := fun _ => inl sample_reference;
     json_Marshal := fun obj => inl (list_byte_of_string (Package (Spec obj)));
     client_Patch := fun _ _ _ _ _ => inl sample_object;
     GetName := fun _ => "provider-x";
     strings_ToLower := fun s => s;
     fmt_Fprintf := fun _ => None |}.

(** The cluster holds the provider and refuses the patch. *)
Definition cluster_refusing_patch : Env unit unit unit unit unit :=
  {| ctrl_GetConfig := inl tt;
     NewForConfig := fun _ _ => inl tt;
     client_Get := fun _ _ _ => inl sample_object;
     name_ParseReference := fun _ => inl sample_reference;
     json_Marshal := fun obj => inl (list_byte_of_string (Package (Spec obj)));
     client_Patch := fun _ _ _ _ _ => inr (Cause "admission webhook denied");
     GetName := fun _ => "provider-x";
     strings_ToLower := fun s => s;
     fmt_Fprintf := fun _ => None |}.

End XpkgTrace.

(** * Properties *)

(** ** Properties of [Spark.Run] *)

Module SparkProps.
Import Spark.

Section Facts.
Variables Reference v1Image Bundle DigestStore : Type.
Variable env : Env Reference v1Image Bundle DigestStore.
Variable c : Command.

(** C1. Whenever the bundler has returned a Bundle, the run releases it
    exactly once before [Run] returns: the trace of the whole invocation
    holds one [Cleanup] call, it is a call on that Bundle, and it comes
    after the Bundle was made.  This covers every exit path after
    [BuildBundle]: a failure to create the runtime root directory, a failed
    execution, and the completion of the run. *)
Theorem bundle_cleanup_exactly_once :
  forall s ctx img id b,
    In (EvBundle s ctx img id (inl b)) (trace (snd (invoke env c))) ->
    count is_cleanup (trace (snd (invoke env c))) = 1 /\
    exists pre post,
      trace (snd (invoke env c)) = pre ++ EvBundle s ctx img id (inl b) :: post /\
      count is_cleanup pre = 0 /\
      exists err, In (EvCleanup b err) post.
Proof.
  intros s ctx img id b Hin.
  destruct (invoke env c) as [res w] eqn:H.
  run_cases H; cbv beta iota zeta delta [fst snd trace stdout] in Hin |- *;
    in_cases Hin.
  all: inversion Hin; subst; clear Hin.
  all: split; [reflexivity | ].
  all: split_trace.
  all: split; [reflexivity | split; [reflexivity | eexists; cbn [In]; find_in ] ].
Qed.

(** C2. If any step from reading the request up to the execution fails,
    [Run] returns a non-nil error and standard output stays empty.  Bytes
    reach standard output only in a run where no step before the write
    failed: the function ran without error, the Bundle was released, the
    Response was encoded, and what is on standard output is a prefix of
    that encoding. *)
Theorem failure_writes_no_response :
  (forall e s,
      In e (trace (snd (invoke env c))) ->
      failed e = Some s -> setup_or_execution s = true ->
      fst (invoke env c) <> None /\ stdout (snd (invoke env c)) = []) /\
  (stdout (snd (invoke env c)) <> [] ->
   (forall e s,
       In e (trace (snd (invoke env c))) -> failed e = Some s ->
       s = WriteResponse) /\
   exists cmd child b rsp pb n err,
     In (EvOutput cmd child) (trace (snd (invoke env c))) /\
     child_err child = None /\
     In (EvCleanup b None) (trace (snd (invoke env c))) /\
     In (EvMarshal rsp (inl pb)) (trace (snd (invoke env c))) /\
     In (EvWrite pb n err) (trace (snd (invoke env c))) /\
     stdout (snd (invoke env c)) = firstn n pb).
Proof.
  destruct (invoke env c) as [res w] eqn:H.
  run_cases H; cbv beta iota zeta delta [fst snd trace stdout].
  all: split.
  all: try (intros ev st Hin Hf Hs; in_cases Hin; subst ev;
            failed_cases Hf;
            try (split; [discriminate | reflexivity]);
            inversion Hf; subst st; discriminate Hs).
  all: try (intros Hne; exfalso; apply Hne; reflexivity).
  all: intros Hne; split.
  all: try (intros ev st Hin Hf; in_cases Hin; subst ev;
            failed_cases Hf; inversion Hf; reflexivity).
  all: do 7 eexists; repeat split;
    try (cbn [In]; find_in); try eassumption; try reflexivity.
Qed.

(** C3. Once the request is decoded, [Run] makes one deadline-carrying
    context.  Its timeout is the request's timeout read as a duration when
    that is not zero, and exactly 25 seconds (in nanoseconds) when the
    request names no timeout; the pull, the bundling and the command of the
    external runtime are all given that same context. *)
Theorem one_deadline_from_request :
  forall pb req,
    In (EvUnmarshal pb (inl req)) (trace (snd (invoke env c))) ->
    exists t,
      count is_deadline (trace (snd (invoke env c))) = 1 /\
      In (EvWithTimeout t) (trace (snd (invoke env c))) /\
      (GetTimeout (GetRunFunctionConfig req) = None -> t = 25000000000%Z) /\
      (AsDuration (GetTimeout (GetRunFunctionConfig req)) <> 0%Z ->
       t = AsDuration (GetTimeout (GetRunFunctionConfig req))) /\
      (forall e ctx,
          In e (trace (snd (invoke env c))) -> ctx_of e = Some ctx ->
          ctx = WithTimeout t).
Proof.
  intros pb req Hin.
  destruct (invoke env c) as [res w] eqn:H.
  run_cases H; cbv beta iota zeta delta [fst snd trace stdout] in Hin |- *;
    in_cases Hin.
  all: inversion Hin; subst; clear Hin.
  all: eexists; split; [reflexivity | ].
  all: split; [cbn [In]; find_in | ].
  all: split;
    [ intros Hnone; subst deadline; rewrite Hnone; reflexivity | ].
  all: split;
    [ intros Hnz; subst deadline;
      destruct (Z.eqb_spec (AsDuration (GetTimeout (GetRunFunctionConfig req))) 0);
      [contradiction | reflexivity]
    | ].
  all: intros ev ctx Hin Hc; in_cases Hin; subst ev; cbn in Hc;
    try discriminate Hc; inversion Hc; reflexivity.
Qed.

(** C5. The host is probed for overlay support at most once in a run, and
    exactly once when the request was decoded; the probe is made on the
    cache directory and before the image reference is parsed or pulled.
    Every bundling call goes to the overlay-caching bundler when the probe
    said yes and to the uncompressed bundler otherwise.  When the probe
    said yes and making the overlay bundler fails, [Run] returns that error
    under [errNewBundleStore]; nothing is resolved or bundled: there is no
    fallback to the uncompressed bundler. *)
Theorem bundler_selected_once_by_probe :
  count is_probe (trace (snd (invoke env c))) <= 1 /\
  (forall pb req,
      In (EvUnmarshal pb (inl req)) (trace (snd (invoke env c))) ->
      let ok := overlay_Supported _ _ _ _ env (CacheDir c) in
      count is_probe (trace (snd (invoke env c))) = 1 /\
      (exists pre post,
          trace (snd (invoke env c)) =
            pre ++ EvSupported (CacheDir c) ok :: post /\
          count is_resolve pre = 0) /\
      (forall s ctx img id r,
          In (EvBundle s ctx img id r) (trace (snd (invoke env c))) ->
          s = if ok then overlay_CachingBundler (CacheDir c)
              else uncompressed_Bundler (CacheDir c)) /\
      (forall e,
          ok = true ->
          overlay_NewCachingBundler _ _ _ _ env (CacheDir c) = Some e ->
          fst (invoke env c) = Some (WithMessage e errNewBundleStore) /\
          count is_bundle (trace (snd (invoke env c))) = 0 /\
          count is_resolve (trace (snd (invoke env c))) = 0)).
Proof.
  destruct (invoke env c) as [res w] eqn:H.
  run_cases H; cbv beta iota zeta delta [fst snd trace stdout].
  all: split; [cbn; lia | ].
  all: intros pb req Hin; in_cases Hin.
  all: inversion Hin; subst; clear Hin.
  all: split; [reflexivity | ].
  all: split; [split_trace; split; reflexivity | ].
  all: split;
    [ intros s ctx img id r Hin; in_cases Hin; inversion Hin; reflexivity | ].
  all: intros err Hok He; try discriminate Hok.
  all: try discriminate He; inversion He; subst.
  all: repeat split; reflexivity.
Qed.


(** C7. Releasing the Bundle never changes which error a failed run
    reports.  When making the runtime root directory fails, or when the
    execution fails, the Bundle is still released and [Run] returns the
    primary error under its own message, whatever the release returns.  A
    release error is what [Run] returns only in a run where no other step
    failed. *)
Theorem cleanup_never_masks_primary_error :
  (forall path perm e,
      In (EvMkdirAll path perm (Some e)) (trace (snd (invoke env c))) ->
      fst (invoke env c) = Some (WithMessage e errMkRuntimeRootdir) /\
      exists b,
        In (EvCleanup b (Bundle_Cleanup _ _ _ _ env b))
           (trace (snd (invoke env c)))) /\
  (forall cmd child e,
      In (EvOutput cmd child) (trace (snd (invoke env c))) ->
      child_err child = Some e ->
      fst (invoke env c) = Some (WithMessage e errRuntime) /\
      exists b,
        In (EvCleanup b (Bundle_Cleanup _ _ _ _ env b))
           (trace (snd (invoke env c)))) /\
  (forall e,
      fst (invoke env c) = Some (WithMessage e errCleanupBundle) ->
      (exists b, In (EvCleanup b (Some e)) (trace (snd (invoke env c)))) /\
      (forall ev s,
          In ev (trace (snd (invoke env c))) -> failed ev = Some s ->
          s = BundleCleanup)).
Proof.
  destruct (invoke env c) as [res w] eqn:H.
  run_cases H; cbv beta iota zeta delta [fst snd trace stdout].
  all: split;
    [ intros path perm pe Hin; in_cases Hin; inversion Hin;
      (split; [reflexivity | eexists; cbn [In]; find_in ])
    | ].
  all: split;
    [ intros cmd child pe Hin Herr; in_cases Hin;
      first [ exfalso; congruence
            | split; [cbv [Wrap]; congruence | eexists; cbn [In]; find_in ] ]
    | ].
  all: intros ce Hres.
  all: try match type of Hres with
           | context [Wrap ?o _] => is_var o; destruct o
           end.
  all: unfold_messages Hres; try discriminate Hres.
  all: inversion Hres; subst; clear Hres.
  all: split; [eexists; cbn [In]; find_in | ].
  all: intros ev st Hin Hf; in_cases Hin; subst ev;
    failed_cases Hf; inversion Hf; reflexivity.
Qed.

End Facts.

(** *** The sample runs, evaluated *)

Example AsDuration_of_no_timeout : AsDuration None = 0%Z.
Proof. reflexivity. Qed.

Example AsDuration_of_five_seconds :
  AsDuration (Some {| Seconds := 5; Nanos := 500 |}) = 5000000500%Z.
Proof. reflexivity. Qed.

Example AsDuration_saturates :
  AsDuration (Some {| Seconds := 2 ^ 62; Nanos := 0 |}) = MaxInt64.
Proof. vm_compute. reflexivity. Qed.

Example all_succeed_run :
  fst (invoke all_succeed sample_command) = None /\
  stdout (snd (invoke all_succeed sample_command)) =
    [Byte.x0a; Byte.x02; Byte.x6f; Byte.x6b] /\
  List.length (trace (snd (invoke all_succeed sample_command))) = 17.
Proof. vm_compute. repeat split. Qed.

Example run_and_cleanup_fail_run :
  fst (invoke run_and_cleanup_fail sample_command) =
    Some (WithMessage (Cause "exit status 1") "OCI runtime error") /\
  stdout (snd (invoke run_and_cleanup_fail sample_command)) = [] /\
  In (EvCleanup tt (Some (Cause "unmount failed")))
     (trace (snd (invoke run_and_cleanup_fail sample_command))).
Proof. vm_compute. repeat split. find_in. Qed.

Example overlay_broken_run :
  fst (invoke overlay_broken sample_command) =
    Some (WithMessage (Cause "cannot mount")
            "cannot create OCI runtime bundle store") /\
  List.length (trace (snd (invoke overlay_broken sample_command))) = 8.
Proof. vm_compute. repeat split. Qed.

(** *** The properties on the sample runs *)

Lemma bundle_cleanup_exactly_once_witness :
  count is_cleanup (trace (snd (invoke run_and_cleanup_fail sample_command))) = 1 /\
  exists pre post,
    trace (snd (invoke run_and_cleanup_fail sample_command)) =
      pre ++ EvBundle (uncompressed_Bundler "/xfn") sample_ctx tt "run-1" (inl tt)
          :: post /\
    count is_cleanup pre = 0 /\
    exists err, In (EvCleanup tt err) post.
Proof.
  apply bundle_cleanup_exactly_once. vm_compute. find_in.
Defined.

Lemma failure_writes_no_response_witness :
  fst (invoke pull_fails sample_command) <> None /\
  stdout (snd (invoke pull_fails sample_command)) = [].
Proof.
  apply (proj1 (failure_writes_no_response _ _ _ _ pull_fails sample_command)
           (EvImage (oci_NewCachingPuller unit tt "/xfn") sample_ctx tt None
              (inr (Cause "registry unreachable")))
           Pull).
  - vm_compute. find_in.
  - reflexivity.
  - reflexivity.
Defined.

Lemma one_deadline_from_request_witness :
  exists t,
    count is_deadline (trace (snd (invoke all_succeed sample_command))) = 1 /\
    In (EvWithTimeout t) (trace (snd (invoke all_succeed sample_command))) /\
    (GetTimeout (GetRunFunctionConfig sample_request) = None ->
     t = 25000000000%Z) /\
    (AsDuration (GetTimeout (GetRunFunctionConfig sample_request)) <> 0%Z ->
     t = AsDuration (GetTimeout (GetRunFunctionConfig sample_request))) /\
    (forall e ctx,
        In e (trace (snd (invoke all_succeed sample_command))) ->
        ctx_of e = Some ctx -> ctx = WithTimeout t).
Proof.
  apply (one_deadline_from_request _ _ _ _ all_succeed sample_command
           [Byte.x0a] sample_request).
  vm_compute. find_in.
Defined.

Lemma bundler_selected_once_by_probe_witness :
  fst (invoke overlay_broken sample_command) =
    Some (WithMessage (Cause "cannot mount") errNewBundleStore) /\
  count is_bundle (trace (snd (invoke overlay_broken sample_command))) = 0 /\
  count is_resolve (trace (snd (invoke overlay_broken sample_command))) = 0.
Proof.
  assert (Hin : In (EvUnmarshal [Byte.x0a] (inl sample_request))
                  (trace (snd (invoke overlay_broken sample_command))))
    by (vm_compute; find_in).
  destruct (proj2 (bundler_selected_once_by_probe _ _ _ _ overlay_broken
                     sample_command) _ _ Hin) as (_ & _ & _ & Hfail).
  apply Hfail; reflexivity.
Defined.


Lemma cleanup_never_masks_primary_error_witness :
  fst (invoke run_and_cleanup_fail sample_command) =
    Some (WithMessage (Cause "exit status 1") errRuntime).
Proof.
  refine (proj1 (proj1 (proj2 (cleanup_never_masks_primary_error _ _ _ _
                   run_and_cleanup_fail sample_command))
                   sample_runtime_cmd
                   (sample_child (Some (Cause "exit status 1")))
                   (Cause "exit status 1") _ _)).
  - vm_compute. find_in.
  - reflexivity.
Defined.

End SparkProps.

(** ** The wire format reads back what it wrote *)

Module WireProps.
Import Wire.

Lemma byte_of_N_to_N (n : N) : (n <= 255)%N -> Byte.to_N (byte_of_N n) = n.
Proof.
  intros Hn. unfold byte_of_N.
  destruct (Byte.of_N n) as [b | ] eqn:E.
  - apply Byte.to_of_N. exact E.
  - apply Byte.of_N_None_iff in E. lia.
Qed.

Lemma decode_varint_fuel (fuel : nat) :
  forall n rest,
    (n < 2 ^ N.of_nat fuel)%N ->
    decode_varint (varint_fuel (S fuel) n ++ rest) = Some (n, rest).
Proof.
  induction fuel as [ | fuel IH]; intros n rest Hn.
  - change (2 ^ N.of_nat 0)%N with 1%N in Hn.
    cbn [varint_fuel].
    destruct (N.ltb_spec n 128) as [Hlt | Hge]; [ | lia].
    cbn [app decode_varint]. rewrite byte_of_N_to_N by lia.
    destruct (N.ltb_spec n 128); [reflexivity | lia].
  - change (varint_fuel (S (S fuel)) n) with
      (if (n <? 128)%N then [byte_of_N n]
       else byte_of_N (128 + n mod 128) :: varint_fuel (S fuel) (n / 128)).
    destruct (N.ltb_spec n 128) as [Hlt | Hge].
    + cbn [app decode_varint]. rewrite byte_of_N_to_N by lia.
      destruct (N.ltb_spec n 128); [reflexivity | lia].
    + cbn [app decode_varint].
      rewrite byte_of_N_to_N by ediv_lia.
      destruct (N.ltb_spec (128 + n mod 128) 128) as [Hlt | _];
        [ediv_lia | ].
      rewrite IH.
      * f_equal. f_equal. ediv_lia.
      * rewrite Nat2N.inj_succ, N.pow_succ_r' in Hn. ediv_lia.
Qed.

Lemma decode_encode_varint (n : N) (rest : bytes) :
  decode_varint (encode_varint n ++ rest) = Some (n, rest).
Proof.
  unfold encode_varint. apply decode_varint_fuel.
  rewrite N2Nat.id. apply N.size_gt.
Qed.

Lemma encode_varint_not_nil (n : N) : encode_varint n <> [].
Proof.
  unfold encode_varint. cbn [varint_fuel].
  destruct (n <? 128)%N; discriminate.
Qed.

Lemma key_number (num : N) (v : value) :
  ((num * 8 + wire_type v) / 8 = num)%N /\
  ((num * 8 + wire_type v) mod 8 = wire_type v)%N.
Proof.
  assert (Hw : (wire_type v < 8)%N) by (destruct v; cbn; lia).
  split; ediv_lia.
Qed.

Lemma decode_fields_fuel_app (fs : list field) :
  forall fuel,
    (List.length fs < fuel)%nat ->
    decode_fields_fuel fuel (encode_fields fs) = Some fs.
Proof.
  induction fs as [ | [num v] fs IH]; intros fuel Hfuel.
  - destruct fuel; [inversion Hfuel | reflexivity].
  - destruct fuel as [ | fuel]; [inversion Hfuel | ].
    cbn [List.length] in Hfuel.
    cbn [encode_fields flat_map]. fold (encode_fields fs).
    unfold encode_field. cbn [fst snd].
    cbn [decode_fields_fuel].
    destruct ((encode_varint (num * 8 + wire_type v) ++ encode_value v) ++
              encode_fields fs) as [ | b0 bs0] eqn:Ebs.
    { exfalso. apply app_eq_nil in Ebs. destruct Ebs as [Ebs _].
      apply app_eq_nil in Ebs. destruct Ebs as [Ebs _].
      exact (encode_varint_not_nil _ Ebs). }
    rewrite <- Ebs. clear Ebs b0 bs0.
    rewrite <- !app_assoc. rewrite decode_encode_varint.
    destruct (key_number num v) as [Hnum Hwt]. rewrite Hnum, Hwt.
    destruct v as [n | payload]; cbn [wire_type encode_value].
    + rewrite decode_encode_varint. rewrite IH by lia. reflexivity.
    + rewrite <- app_assoc. rewrite decode_encode_varint.
      rewrite Nat2N.id.
      rewrite length_app.
      destruct (Nat.leb_spec (List.length payload)
                  (List.length payload + List.length (encode_fields fs)))
        as [_ | Hbad]; [ | lia].
      rewrite firstn_app, Nat.sub_diag, firstn_all. cbn [firstn].
      rewrite app_nil_r.
      rewrite skipn_app, Nat.sub_diag, skipn_all. cbn [skipn app].
      rewrite IH by lia. reflexivity.
Qed.

Lemma decode_encode_fields (fs : list field) :
  decode_fields (encode_fields fs) = Some fs.
Proof.
  unfold decode_fields. apply decode_fields_fuel_app.
  assert (H : (List.length fs <= List.length (encode_fields fs))%nat).
  { induction fs as [ | f fs IH]; [apply Nat.le_refl | ].
    cbn [encode_fields flat_map List.length]. fold (encode_fields fs).
    rewrite length_app. unfold encode_field. rewrite length_app.
    pose proof (encode_varint_not_nil (fst f * 8 + wire_type (snd f))) as Hne.
    destruct (encode_varint (fst f * 8 + wire_type (snd f))); [contradiction | ].
    cbn [List.length]. lia. }
  lia.
Qed.

Lemma s64_u64 (z : Z) : is_int64 z -> s64 (u64 z) = z.
Proof.
  unfold is_int64, s64, u64. intros Hz.
  rewrite Z2N.id by (apply Z.mod_pos_bound; lia).
  destruct (Z.ltb_spec ((z mod 2 ^ 64) mod 2 ^ 64) (2 ^ 63)); ediv_lia.
Qed.

Lemma s32_u64 (z : Z) : is_int32 z -> s32 (u64 z) = z.
Proof.
  unfold is_int32, s32, u64. intros Hz.
  rewrite Z2N.id by (apply Z.mod_pos_bound; lia).
  destruct (Z.ltb_spec ((z mod 2 ^ 64) mod 2 ^ 32) (2 ^ 31)); ediv_lia.
Qed.

End WireProps.

(** ** The envelope round trip *)

Module EnvelopeProps.
Import Wire WireProps Envelope.

Lemma Unmarshal_Marshal {A} `{Message A} (ok : A -> Prop) :
  reads_back ok -> forall m, ok m -> Unmarshal (Marshal m) = Some m.
Proof.
  intros Hrb m Hm. unfold Unmarshal, Marshal.
  rewrite decode_encode_fields. apply Hrb. exact Hm.
Qed.

Lemma int_field_cases (num : N) (z : Z) :
  (z = 0%Z /\ int_field num z = []) \/
  (z <> 0%Z /\ int_field num z = [(num, Varint (u64 z))]).
Proof.
  unfold int_field. destruct (Z.eqb_spec z 0); [left | right]; split; auto.
Qed.

Lemma bytes_field_cases (num : N) (bs : bytes) :
  (bs = [] /\ bytes_field num bs = []) \/
  (bytes_field num bs = [(num, Bytes bs)]).
Proof.
  destruct bs; [left | right]; auto.
Qed.

Lemma list_byte_of_string_nil (s : string) :
  list_byte_of_string s = [] -> s = "".
Proof.
  intros E. rewrite <- (string_of_list_byte_of_string s), E. reflexivity.
Qed.

Lemma Duration_reads_back : reads_back Duration_in_range.
Proof.
  intros [secs nanos] [Hs Hn]. cbn [Seconds Nanos] in Hs, Hn.
  cbn [merge fields_of zero Duration_Message].
  unfold Duration_fields. cbn [Seconds Nanos].
  destruct (int_field_cases 1 secs) as [[Es ->] | [_ ->]];
    destruct (int_field_cases 2 nanos) as [[En ->] | [_ ->]];
    cbn [app Duration_merge Seconds Nanos];
    rewrite ?s64_u64, ?s32_u64 by assumption;
    congruence.
Qed.

Lemma ImagePullConfig_reads_back :
  reads_back (fun p => is_int32 (PullPolicy p)).
Proof.
  intros [policy auth] Hp. cbn [PullPolicy] in Hp.
  cbn [merge fields_of zero ImagePullConfig_Message].
  unfold ImagePullConfig_fields. cbn [PullPolicy Auth].
  destruct (int_field_cases 1 policy) as [[Ep ->] | [_ ->]];
    destruct (bytes_field_cases 2 auth) as [[Ea ->] | ->];
    cbn [app ImagePullConfig_merge PullPolicy Auth];
    rewrite ?s32_u64 by assumption;
    congruence.
Qed.

Lemma RunFunctionConfig_reads_back : reads_back RunFunctionConfig_in_range.
Proof.
  intros [[d | ]] Hc; cbn in Hc.
  - cbn [merge fields_of zero RunFunctionConfig_Message].
    unfold RunFunctionConfig_fields, message_field. cbn [Timeout].
    cbn [RunFunctionConfig_merge].
    rewrite (Unmarshal_Marshal _ Duration_reads_back d Hc). reflexivity.
  - reflexivity.
Qed.

Lemma RunFunctionRequest_reads_back : reads_back Request_in_range.
Proof.
  intros [image input pull cfg] [Hp Hc].
  cbn [GetImagePullConfig GetRunFunctionConfig] in Hp, Hc.
  cbn [merge fields_of zero RunFunctionRequest_Message].
  unfold RunFunctionRequest_fields.
  cbn [GetImage GetInput GetImagePullConfig GetRunFunctionConfig].
  assert (Hpull : forall p, pull = Some p ->
            Unmarshal (Marshal p) = Some p).
  { intros p ->. apply (Unmarshal_Marshal _ ImagePullConfig_reads_back). exact Hp. }
  assert (Hcfg : forall c, cfg = Some c -> Unmarshal (Marshal c) = Some c).
  { intros c ->. apply (Unmarshal_Marshal _ RunFunctionConfig_reads_back).
    exact Hc. }
  clear Hp Hc.
  destruct (bytes_field_cases 1 (list_byte_of_string image)) as [[Ei ->] | ->];
    destruct (bytes_field_cases 2 input) as [[Ein ->] | ->];
    destruct pull as [p | ]; destruct cfg as [c | ];
    cbn [app message_field RunFunctionRequest_merge
         GetImage GetInput GetImagePullConfig GetRunFunctionConfig];
    rewrite ?(Hpull _ eq_refl), ?(Hcfg _ eq_refl);
    cbn [app message_field RunFunctionRequest_merge
         GetImage GetInput GetImagePullConfig GetRunFunctionConfig];
    rewrite ?(Hpull _ eq_refl), ?(Hcfg _ eq_refl);
    cbn [app message_field RunFunctionRequest_merge
         GetImage GetInput GetImagePullConfig GetRunFunctionConfig];
    rewrite ?string_of_list_byte_of_string;
    try (apply list_byte_of_string_nil in Ei);
    subst; reflexivity.
Qed.

Lemma RunFunctionResponse_reads_back : reads_back (fun _ => True).
Proof.
  intros [out] _.
  cbn [merge fields_of zero RunFunctionResponse_Message].
  unfold RunFunctionResponse_fields. cbn [Output].
  destruct (bytes_field_cases 1 out) as [[E ->] | ->];
    cbn [RunFunctionResponse_merge]; congruence.
Qed.

Example varint_of_300 : encode_varint 300 = [Byte.xac; Byte.x02].
Proof. reflexivity. Qed.

Example varint_of_minus_one :
  encode_varint (u64 (-1)) =
    [Byte.xff; Byte.xff; Byte.xff; Byte.xff; Byte.xff; Byte.xff; Byte.xff;
     Byte.xff; Byte.xff; Byte.x01].
Proof. vm_compute. reflexivity. Qed.

Example response_on_the_wire :
  Marshal {| Output := [Byte.x6f; Byte.x6b] |} =
    [Byte.x0a; Byte.x02; Byte.x6f; Byte.x6b].
Proof. reflexivity. Qed.

Example empty_response_on_the_wire :
  Marshal {| Output := [] |} = [] /\
  Unmarshal (A := RunFunctionResponse) [] = Some {| Output := [] |}.
Proof. split; reflexivity. Qed.

Example cut_input_is_refused :
  Unmarshal (A := RunFunctionResponse) [Byte.x0a; Byte.x05; Byte.x6f] = None.
Proof. reflexivity. Qed.

(** C8. Every Request whose numeric fields are values of their Go types
    ([int32] pull policy and nanoseconds, [int64] seconds), and every
    Response, decodes from its encoding to itself: strings and payloads are
    arbitrary byte sequences of any length, the empty one included. *)
Theorem envelope_round_trip :
  (forall req : RunFunctionRequest,
      Request_in_range req -> Unmarshal (Marshal req) = Some req) /\
  (forall rsp : RunFunctionResponse, Unmarshal (Marshal rsp) = Some rsp).
Proof.
  split.
  - apply Unmarshal_Marshal. exact RunFunctionRequest_reads_back.
  - intros rsp.
    apply (Unmarshal_Marshal _ RunFunctionResponse_reads_back). exact I.
Qed.

Lemma envelope_round_trip_witness :
  Unmarshal (Marshal scenario_request) = Some scenario_request.
Proof.
  apply (proj1 envelope_round_trip).
  unfold Request_in_range, Duration_in_range, is_int32, is_int64.
  cbn. lia.
Defined.

End EnvelopeProps.

(** ** Properties of the update commands *)

Module XpkgProps.
Import Xpkg.

Section Facts.
Variables ObjectMeta SpecRest PackageStatus RestConfig Clientset : Type.
Variables errKubeConfig errKubeClient : string.
Variables ConfigurationGroupKind ProviderGroupKind FunctionGroupKind : string.
Variable env : Env ObjectMeta SpecRest PackageStatus RestConfig Clientset.

(** The three commands, run from an empty trace with a given helper. *)
Local Abbreviation config warn c logger :=
  (call (updateConfigCmd_Run errKubeConfig errKubeClient
           ConfigurationGroupKind env warn c logger) start).
Local Abbreviation provider warn c logger :=
  (call (updateProviderCmd_Run errKubeConfig errKubeClient
           ProviderGroupKind env warn c logger) start).
Local Abbreviation function warn c logger :=
  (call (updateFunctionCmd_Run errKubeConfig errKubeClient
           FunctionGroupKind env warn c logger) start).

(** What the code does when fetching the prior object fails, for any
    helper: the helper is called on the error, no patch is sent, and the
    command returns what the helper leaves, wrapped (nil stays nil). *)
Lemma get_failure_returns_what_helper_leaves :
  forall warn logger e,
    (forall c,
        In (EvGet Configurations (config_Name c) (inr e))
           (trace (snd (config warn c logger))) ->
        fst (config warn c logger) =
          Wrap (snd (warn e)) "cannot update configuration" /\
        In (EvWarnIfNotFound e (fst (warn e)) (snd (warn e)))
           (trace (snd (config warn c logger))) /\
        count is_patch (trace (snd (config warn c logger))) = 0) /\
    (forall c,
        In (EvGet Providers (provider_Name c) (inr e))
           (trace (snd (provider warn c logger))) ->
        fst (provider warn c logger) =
          Wrap (snd (warn e)) "cannot update provider" /\
        In (EvWarnIfNotFound e (fst (warn e)) (snd (warn e)))
           (trace (snd (provider warn c logger))) /\
        count is_patch (trace (snd (provider warn c logger))) = 0) /\
    (forall c,
        In (EvGet Functions (function_Name c) (inr e))
           (trace (snd (function warn c logger))) ->
        fst (function warn c logger) =
          Wrap (snd (warn e)) "cannot update function" /\
        In (EvWarnIfNotFound e (fst (warn e)) (snd (warn e)))
           (trace (snd (function warn c logger))) /\
        count is_patch (trace (snd (function warn c logger))) = 0).
Proof.
  intros warn logger e.
  split; [ | split]; intros c.
  all: match goal with
       | |- In _ (trace (snd ?run)) -> _ => destruct run as [res w] eqn:H
       end.
  all: xrun_cases H; cbv beta iota zeta delta [fst snd trace]; intros Hin;
    in_cases Hin.
  all: inversion Hin; subst; clear Hin.
  all: match goal with
       | E : _ = (_, _) |- _ => rewrite E
       end.
  all: split; [reflexivity | split; [cbn [In fst snd]; find_in | reflexivity]].
Qed.

(** C9. With the helper as the spec describes it, a not-found error from
    fetching the prior object does not come back from the command: each of
    the three commands issues the warning, sends no patch and returns nil. *)
Theorem not_found_on_get_is_a_warning :
  forall IsNotFound e logger,
    IsNotFound e = true ->
    (forall c,
        In (EvGet Configurations (config_Name c) (inr e))
           (trace (snd (config (warnIfNotFound_spec IsNotFound) c logger))) ->
        fst (config (warnIfNotFound_spec IsNotFound) c logger) = None /\
        In (EvWarnIfNotFound e true None)
           (trace (snd (config (warnIfNotFound_spec IsNotFound) c logger))) /\
        count is_patch
          (trace (snd (config (warnIfNotFound_spec IsNotFound) c logger))) = 0) /\
    (forall c,
        In (EvGet Providers (provider_Name c) (inr e))
           (trace (snd (provider (warnIfNotFound_spec IsNotFound) c logger))) ->
        fst (provider (warnIfNotFound_spec IsNotFound) c logger) = None /\
        In (EvWarnIfNotFound e true None)
           (trace (snd (provider (warnIfNotFound_spec IsNotFound) c logger))) /\
        count is_patch
          (trace (snd (provider (warnIfNotFound_spec IsNotFound) c logger))) = 0) /\
    (forall c,
        In (EvGet Functions (function_Name c) (inr e))
           (trace (snd (function (warnIfNotFound_spec IsNotFound) c logger))) ->
        fst (function (warnIfNotFound_spec IsNotFound) c logger) = None /\
        In (EvWarnIfNotFound e true None)
           (trace (snd (function (warnIfNotFound_spec IsNotFound) c logger))) /\
        count is_patch
          (trace (snd (function (warnIfNotFound_spec IsNotFound) c logger))) = 0).
Proof.
  intros IsNotFound e logger Hnf.
  assert (Hwarn : warnIfNotFound_spec IsNotFound e = (true, None))
    by (unfold warnIfNotFound_spec; rewrite Hnf; reflexivity).
  destruct (get_failure_returns_what_helper_leaves
              (warnIfNotFound_spec IsNotFound) logger e) as (Hc & Hp & Hf).
  rewrite Hwarn in Hc, Hp, Hf. cbn [fst snd Wrap] in Hc, Hp, Hf.
  split; [exact Hc | split; [exact Hp | exact Hf]].
Qed.


End Facts.

(** *** The properties on the sample runs *)

Example sample_update_reports :
  fst (sample_provider_run pass_on cluster) = None /\
  count is_patch (trace (snd (sample_provider_run pass_on cluster))) = 1.
Proof. vm_compute. split; reflexivity. Qed.

Example sample_update_of_missing_object_with_pass_on :
  fst (sample_provider_run pass_on cluster_without_object) =
    Some (WithMessage
            (Cause "providers.pkg.crossplane.io provider-x not found")
            "cannot update provider").
Proof. reflexivity. Qed.

Lemma not_found_on_get_is_a_warning_witness :
  fst (sample_provider_run (warnIfNotFound_spec (fun _ => true))
         cluster_without_object) = None /\
  In (EvWarnIfNotFound
        (Cause "providers.pkg.crossplane.io provider-x not found") true None)
     (trace (snd (sample_provider_run (warnIfNotFound_spec (fun _ => true))
                    cluster_without_object))) /\
  count is_patch
    (trace (snd (sample_provider_run (warnIfNotFound_spec (fun _ => true))
                   cluster_without_object))) = 0.
Proof.
  refine (proj1 (proj2
            (not_found_on_get_is_a_warning _ _ _ _ _
               "cannot get kubeconfig" "cannot create client"
               "configuration.pkg.crossplane.io" "provider.pkg.crossplane.io"
               "function.pkg.crossplane.io"
               cluster_without_object (fun _ => true)
               (Cause "providers.pkg.crossplane.io provider-x not found")
               [] eq_refl))
            sample_update _).
  vm_compute. find_in.
Defined.



End XpkgProps.

(** * More properties *)

(** A list that increases step by step is strongly sorted. *)
Lemma increasing_sorted (l : list nat) :
  increasing l = true -> StronglySorted lt l.
Proof.
  intros H. apply Sorted_StronglySorted; [exact Nat.lt_trans | ].
  induction l as [ | a l IH]; [constructor | ].
  cbn [increasing] in H. destruct l as [ | b l].
  - constructor; constructor.
  - apply andb_true_iff in H. destruct H as [Hab Hl].
    constructor; [apply IH; exact Hl | ].
    constructor. apply Nat.ltb_lt. exact Hab.
Qed.

(** ** More properties of [Spark.Run] *)

Module SparkMore.
Import Spark SparkTrace.

Section Lists.
Variables Reference v1Image Bundle DigestStore : Type.
Local Abbreviation Event := (Event Reference v1Image Bundle DigestStore).

Lemma failed_has_error (e : Event) (s : Step) :
  failed e = Some s -> exists err, error_of e = Some err.
Proof.
  destruct e as [r | pb r | t | id | root | root ok | root o | root r | x r
                | p ctx ref cfg r | b ctx img id r | path perm o | cmd child
                | b o | rsp r | pb n o | ctx];
    cbn [failed error_of]; intros H;
    try discriminate H;
    try (destruct r; [discriminate H | eexists; reflexivity]);
    try (destruct o; [eexists; reflexivity | discriminate H]).
  destruct (child_err child); [eexists; reflexivity | discriminate H].
Qed.

Lemma first_failure_at (pre post : list Event) (ev : Event) (s : Step)
    (err : error) :
  (forall x, In x pre -> failed x = None) ->
  failed ev = Some s -> error_of ev = Some err ->
  first_failure (pre ++ ev :: post) = Some (s, err).
Proof.
  intros Hpre Hs He.
  induction pre as [ | x pre IH]; cbn [app first_failure].
  - rewrite Hs, He. reflexivity.
  - rewrite (Hpre x (or_introl eq_refl)). apply IH.
    intros y Hy. apply Hpre. right. exact Hy.
Qed.

Lemma first_failure_none (tr : list Event) :
  first_failure tr = None <-> (forall x, In x tr -> failed x = None).
Proof.
  induction tr as [ | e tr IH]; cbn [first_failure].
  - split; [intros _ x [] | reflexivity].
  - destruct (failed e) as [s | ] eqn:Hf.
    + destruct (failed_has_error e s Hf) as [err He]. rewrite He.
      split; [discriminate | ].
      intros H. specialize (H e (or_introl eq_refl)). congruence.
    + rewrite IH. split.
      * intros H x [<- | Hx]; [exact Hf | apply H; exact Hx].
      * intros H x Hx. apply H. right. exact Hx.
Qed.

Lemma after_first_failure_at (pre post : list Event) (ev : Event) (s : Step) :
  (forall x, In x pre -> failed x = None) ->
  failed ev = Some s ->
  after_first_failure (pre ++ ev :: post) = post.
Proof.
  intros Hpre Hs.
  induction pre as [ | x pre IH]; cbn [app after_first_failure].
  - rewrite Hs. reflexivity.
  - rewrite (Hpre x (or_introl eq_refl)). apply IH.
    intros y Hy. apply Hpre. right. exact Hy.
Qed.

End Lists.

Section Facts.
Variables Reference v1Image Bundle DigestStore : Type.
Variable env : Env Reference v1Image Bundle DigestStore.
Variable c : Command.

(** Evaluates a reading of a listed trace, using what is known of the
    calls that decided the path. *)
Ltac read_trace :=
  repeat (cbv beta iota zeta delta
            [first_failure after_first_failure failed error_of forallb
             is_release option_map fst snd message_of andb map rank
             increasing Nat.ltb Nat.leb];
          try match goal with
              | E : ?x = _ |- context [match ?x with _ => _ end] => rewrite E
              end).

Lemma result_is_first_failure :
  fst (invoke env c) =
    option_map (fun f => WithMessage (snd f) (message_of (fst f)))
      (first_failure (trace (snd (invoke env c)))).
Proof.
  destruct (invoke env c) as [res w] eqn:H.
  run_cases H; cbv beta iota zeta delta [fst snd trace stdout].
  all: read_trace; try reflexivity.
  all: match goal with
       | |- context [Wrap ?o _] => destruct o; reflexivity
       end.
Qed.

Lemma only_releases_after_failure :
  forallb is_release (after_first_failure (trace (snd (invoke env c)))) = true.
Proof.
  destruct (invoke env c) as [res w] eqn:H.
  run_cases H; cbv beta iota zeta delta [fst snd trace stdout].
  all: read_trace; try reflexivity.
  all: match goal with
       | |- context [match ?o with _ => _ end] => destruct o; reflexivity
       end.
Qed.

(** X1. [Run] returns nil exactly in the runs in which no call failed. *)
Theorem nil_iff_no_call_failed :
  fst (invoke env c) = None <->
  (forall x, In x (trace (snd (invoke env c))) -> failed x = None).
Proof.
  rewrite result_is_first_failure, <- first_failure_none.
  destruct (first_failure (trace (snd (invoke env c)))); cbn [option_map];
    split; intros H; try reflexivity; discriminate H.
Qed.

(** X2. When a call fails, [Run] returns the error of the first call that
    failed, wrapped in the error string of that step; what fails later (the
    release of the Bundle) does not change it. *)
Theorem first_failure_is_reported :
  forall pre ev post s err,
    trace (snd (invoke env c)) = pre ++ ev :: post ->
    (forall x, In x pre -> failed x = None) ->
    failed ev = Some s ->
    error_of ev = Some err ->
    fst (invoke env c) = Some (WithMessage err (message_of s)).
Proof.
  intros pre ev post s err Htr Hpre Hs He.
  rewrite result_is_first_failure, Htr.
  rewrite (first_failure_at _ _ _ _ pre post ev s err Hpre Hs He).
  reflexivity.
Qed.

(** X3. [Run] stops at the first call that fails: after it the run only
    releases the Bundle and cancels the context; it makes no call to the
    stores, the registry, the runtime, the encoder or standard output. *)
Theorem after_a_failure_only_releases :
  forall pre ev post s,
    trace (snd (invoke env c)) = pre ++ ev :: post ->
    (forall x, In x pre -> failed x = None) ->
    failed ev = Some s ->
    forall x, In x post -> is_release x = true.
Proof.
  intros pre ev post s Htr Hpre Hs.
  pose proof only_releases_after_failure as H.
  rewrite Htr, (after_first_failure_at _ _ _ _ pre post ev s Hpre Hs) in H.
  apply forallb_forall. exact H.
Qed.

(** X4. The calls of a run are made in the order of the text of [Run] and
    each at most once: along the trace the places of the calls in the
    pipeline strictly increase.  So the request is read before anything
    else, the bundler is chosen before the image is resolved, the pull
    comes before the bundling, the bundling before the execution, the
    release of the Bundle before the Response is encoded and written, and
    the cancelling of the context last. *)
Theorem calls_follow_the_pipeline :
  StronglySorted lt (map rank (trace (snd (invoke env c)))).
Proof.
  apply increasing_sorted.
  destruct (invoke env c) as [res w] eqn:H.
  run_cases H; cbv beta iota zeta delta [fst snd trace stdout].
  all: reflexivity.
Qed.

(** X5. The deferred [cancel] runs once in every run that made the
    context, as the last call of the run and on that context; a run that
    fails before the context is made cancels nothing. *)
Theorem context_is_always_cancelled :
  count is_cancel (trace (snd (invoke env c))) =
    count is_deadline (trace (snd (invoke env c))) /\
  (forall t,
      In (EvWithTimeout t) (trace (snd (invoke env c))) ->
      exists pre,
        trace (snd (invoke env c)) = pre ++ [EvCancel (WithTimeout t)] /\
        count is_cancel pre = 0).
Proof.
  destruct (invoke env c) as [res w] eqn:H.
  run_cases H; cbv beta iota zeta delta [fst snd trace stdout].
  all: split; [reflexivity | ].
  all: intros t Hin; in_cases Hin.
  all: inversion Hin; subst; clear Hin.
  all: match goal with
       | |- exists pre, ?l = _ /\ _ => exists (removelast l)
       end.
  all: split; reflexivity.
Qed.

(** X6. The timeout of the context is never zero: a request whose timeout
    reads as the zero duration, set or not, gets the default of 25 seconds.
    A negative timeout is passed on unchanged: the context gets the
    request's own duration, which is below zero. *)
Theorem timeout_is_never_zero :
  forall pb req t,
    In (EvUnmarshal pb (inl req)) (trace (snd (invoke env c))) ->
    In (EvWithTimeout t) (trace (snd (invoke env c))) ->
    t <> 0%Z /\
    (AsDuration (GetTimeout (GetRunFunctionConfig req)) = 0%Z ->
     t = 25000000000%Z) /\
    ((AsDuration (GetTimeout (GetRunFunctionConfig req)) < 0)%Z ->
     t = AsDuration (GetTimeout (GetRunFunctionConfig req)) /\ (t < 0)%Z).
Proof.
  intros pb req t Hreq Ht.
  destruct (invoke env c) as [res w] eqn:H.
  run_cases H; cbv beta iota zeta delta [fst snd trace stdout] in Hreq, Ht;
    in_cases Hreq; in_cases Ht.
  all: inversion Hreq; subst; clear Hreq.
  all: inversion Ht; subst; clear Ht.
  all: subst deadline.
  all: destruct (Z.eqb_spec (AsDuration (GetTimeout (GetRunFunctionConfig req))) 0)
         as [Hz | Hnz].
  all: split; [first [assumption | discriminate] | split].
  all: intros Hd;
    first [reflexivity | exfalso; lia | split; [reflexivity | exact Hd]].
Qed.

(** X7. Every call of a run gets what the calls before it produced: the
    two bundlers, the probe and the digest store are rooted at the
    command's cache directory; the reference parsed is the request's image;
    the pull uses the digest store of this run, a reference that the parse
    returned and the request's pull configuration; the image bundled is one
    that the pull returned, under the run identifier; the runtime root is
    made at [Join(cache dir, "runtime")] with mode 0700. *)
Theorem calls_are_wired :
  forall pb req,
    In (EvUnmarshal pb (inl req)) (trace (snd (invoke env c))) ->
    forall e,
      In e (trace (snd (invoke env c))) ->
      wired env c req (trace (snd (invoke env c))) e.
Proof.
  intros pb req Hreq e He.
  destruct (invoke env c) as [res w] eqn:H.
  run_cases H; cbv beta iota zeta delta [fst snd trace stdout] in Hreq, He |- *;
    in_cases Hreq.
  all: inversion Hreq; subst; clear Hreq.
  all: in_cases He; subst e; cbn [wired puller_digest puller_image_store
                                   oci_NewCachingPuller store_NewImage].
  all: try exact I; try reflexivity.
  all: repeat split; try reflexivity.
  all: try (cbn [In]; find_in).
  all: do 3 eexists; cbn [In]; find_in.
Qed.

End Facts.

(** *** The properties on the sample runs *)

Ltac none_failed :=
  vm_compute; intros x Hx;
  repeat (destruct Hx as [<- | Hx]; [reflexivity | ]); contradiction.

Lemma first_failure_is_reported_witness :
  fst (invoke pull_fails sample_command) =
    Some (WithMessage (Cause "registry unreachable") errPull).
Proof.
  apply (first_failure_is_reported _ _ _ _ pull_fails sample_command
           (firstn 9 (trace (snd (invoke pull_fails sample_command))))
           (EvImage (oci_NewCachingPuller unit tt "/xfn") sample_ctx tt None
              (inr (Cause "registry unreachable")))
           (skipn 10 (trace (snd (invoke pull_fails sample_command))))
           Pull (Cause "registry unreachable")).
  - vm_compute. reflexivity.
  - none_failed.
  - reflexivity.
  - reflexivity.
Defined.

Lemma after_a_failure_only_releases_witness :
  Forall (fun x => is_release x = true)
    (skipn 12 (trace (snd (invoke run_and_cleanup_fail sample_command)))).
Proof.
  apply Forall_forall.
  apply (after_a_failure_only_releases _ _ _ _ run_and_cleanup_fail
           sample_command
           (firstn 11 (trace (snd (invoke run_and_cleanup_fail sample_command))))
           (EvOutput sample_runtime_cmd
              (sample_child (Some (Cause "exit status 1"))))
           (skipn 12 (trace (snd (invoke run_and_cleanup_fail sample_command))))
           Execution).
  - vm_compute. reflexivity.
  - none_failed.
  - reflexivity.
Defined.

Lemma context_is_always_cancelled_witness :
  exists pre,
    trace (snd (invoke pull_fails sample_command)) =
      pre ++ [EvCancel sample_ctx] /\
    count is_cancel pre = 0.
Proof.
  apply (proj2 (context_is_always_cancelled _ _ _ _ pull_fails sample_command)
           25000000000%Z).
  vm_compute. find_in.
Defined.

Lemma timeout_is_never_zero_witness :
  (25000000000%Z <> 0%Z /\ 25000000000%Z = 25000000000%Z) /\
  ((-1500000000)%Z <> 0%Z /\
   (-1500000000)%Z =
     AsDuration (GetTimeout (GetRunFunctionConfig overdue_request)) /\
   (-1500000000 < 0)%Z).
Proof.
  split.
  - destruct (timeout_is_never_zero _ _ _ _ all_succeed sample_command
                [Byte.x0a] sample_request 25000000000%Z)
      as (Hnz & Hdef & _).
    + vm_compute. find_in.
    + vm_compute. find_in.
    + split; [exact Hnz | apply Hdef; reflexivity].
  - destruct (timeout_is_never_zero _ _ _ _ overdue sample_command
                [Byte.x0a] overdue_request (-1500000000)%Z)
      as (Hnz & _ & Hneg).
    + vm_compute. find_in.
    + vm_compute. find_in.
    + split; [exact Hnz | apply Hneg; vm_compute; reflexivity].
Defined.

Lemma calls_are_wired_witness :
  wired all_succeed sample_command sample_request
    (trace (snd (invoke all_succeed sample_command)))
    (EvBundle (overlay_CachingBundler "/xfn") sample_ctx tt "run-1" (inl tt)).
Proof.
  apply (calls_are_wired _ _ _ _ all_succeed sample_command
           [Byte.x0a] sample_request).
  - vm_compute. find_in.
  - vm_compute. find_in.
Defined.

End SparkMore.

(** ** More properties of the update commands *)

Module XpkgMore.
Import Xpkg XpkgTrace.

Section Facts.
Variables ObjectMeta SpecRest PackageStatus RestConfig Clientset : Type.
Variables errKubeConfig errKubeClient : string.
Variables ConfigurationGroupKind ProviderGroupKind FunctionGroupKind : string.
Variable env : Env ObjectMeta SpecRest PackageStatus RestConfig Clientset.

Local Abbreviation config warn c logger :=
  (call (updateConfigCmd_Run errKubeConfig errKubeClient
           ConfigurationGroupKind env warn c logger) start).
Local Abbreviation provider warn c logger :=
  (call (updateProviderCmd_Run errKubeConfig errKubeClient
           ProviderGroupKind env warn c logger) start).
Local Abbreviation function warn c logger :=
  (call (updateFunctionCmd_Run errKubeConfig errKubeClient
           FunctionGroupKind env warn c logger) start).

(** Opens the three commands of a goal and splits each on its paths. *)
Ltac three_commands :=
  let H := fresh "Hrun" in
  split; [ | split]; intros c;
  match goal with
  | |- context [snd ?run] => destruct run as [res w] eqn:H
  end;
  xrun_cases H; cbv beta iota zeta delta [fst snd trace].

(** X8. A command that cannot get the kubeconfig, or cannot make the
    client from it, returns that error under [errKubeConfig] or
    [errKubeClient]; it asks nothing of the cluster, does not call the
    helper and prints nothing. *)
Theorem no_client_no_call :
  forall warn logger,
    (forall c,
        stops_without_client errKubeConfig errKubeClient
          (fst (config warn c logger)) (trace (snd (config warn c logger)))) /\
    (forall c,
        stops_without_client errKubeConfig errKubeClient
          (fst (provider warn c logger))
          (trace (snd (provider warn c logger)))) /\
    (forall c,
        stops_without_client errKubeConfig errKubeClient
          (fst (function warn c logger))
          (trace (snd (function warn c logger)))).
Proof.
  intros warn logger.
  three_commands.
  all: split;
    [ intros ke Hin; in_cases Hin; inversion Hin; subst;
      repeat split
    | intros pk cfg ke Hin; in_cases Hin; inversion Hin; subst;
      repeat split ].
Qed.

(** Picks the failed call of a listed trace. *)
Ltac pick_failed :=
  lazymatch goal with
  | |- exists ev, In ev ?l /\ update_error ev = Some _ =>
      let rec go l' :=
        lazymatch l' with
        | ?x :: ?rest =>
            first [ exists x; split; [cbn [In]; find_in | reflexivity]
                  | go rest ]
        end in
      go l
  end.

(** X9. Once the client is made, every failure of a command, be it of
    the fetch, of parsing the fetched package, of the JSON encoding or of
    the patch, is handed to [warnIfNotFound] exactly once; the command
    returns what the helper leaves under its own message ([cannot update
    configuration], [provider] or [function]) and prints nothing.  The
    helper is called on nothing but such an error. *)
Theorem failures_pass_the_helper :
  forall warn logger,
    (forall c,
        helper_decides warn "cannot update configuration"
          (fst (config warn c logger)) (trace (snd (config warn c logger)))) /\
    (forall c,
        helper_decides warn "cannot update provider"
          (fst (provider warn c logger))
          (trace (snd (provider warn c logger)))) /\
    (forall c,
        helper_decides warn "cannot update function"
          (fst (function warn c logger))
          (trace (snd (function warn c logger)))).
Proof.
  intros warn logger.
  three_commands.
  all: split;
    [ intros ev ue Hin Hue; in_cases Hin; subst ev;
      cbn [update_error] in Hue; try discriminate Hue;
      inversion Hue; subst;
      match goal with
      | E : _ = (_, _) |- _ => rewrite E
      end;
      (split; [cbn [In fst snd]; find_in | split; reflexivity])
    | intros he hb hr Hin; in_cases Hin; inversion Hin; subst;
      (split; [reflexivity | pick_failed]) ].
Qed.

(** X10. Each command makes the client of its own package ([clientpkgv1]
    for Configuration and Provider, [clientpkgv1beta1] for Function) and
    asks the cluster only for the named object of its own kind: it fetches
    at most once and patches at most once, and it sends no patch when the
    fetch, the parse of the fetched package or the JSON encoding failed. *)
Theorem command_touches_only_its_object :
  forall warn logger,
    (forall c,
        touches_only Configurations clientpkgv1 (config_Name c)
          (trace (snd (config warn c logger)))) /\
    (forall c,
        touches_only Providers clientpkgv1 (provider_Name c)
          (trace (snd (provider warn c logger)))) /\
    (forall c,
        touches_only Functions clientpkgv1beta1 (function_Name c)
          (trace (snd (function warn c logger)))).
Proof.
  intros warn logger.
  three_commands.
  all: split;
    [ intros pk cfg x Hin; in_cases Hin; inversion Hin; reflexivity | ].
  all: split;
    [ intros rk n x Hin; in_cases Hin; inversion Hin; split; reflexivity | ].
  all: split;
    [ intros rk n pt data x Hin; in_cases Hin; inversion Hin;
      split; reflexivity | ].
  all: split; [cbn; lia | ].
  all: split; [cbn; lia | ].
  all: intros ev ue Hin Hue Hnp; in_cases Hin; subst ev;
    cbn [update_error] in Hue; try discriminate Hue;
    try discriminate Hnp; reflexivity.
Qed.

(** X11. A command prints one line, and only after the server accepted
    the patch: the lower-cased group kind of the command, a slash, the name
    of the object that the server returned (not the name argument), and
    [updated] with a newline.  The command then returns the error of that
    print as it is, without a message of its own, and nil when the print
    went through. *)
Theorem accepted_patch_is_reported :
  forall warn logger,
    (forall c,
        reports env ConfigurationGroupKind
          (fst (config warn c logger)) (trace (snd (config warn c logger)))) /\
    (forall c,
        reports env ProviderGroupKind
          (fst (provider warn c logger))
          (trace (snd (provider warn c logger)))) /\
    (forall c,
        reports env FunctionGroupKind
          (fst (function warn c logger))
          (trace (snd (function warn c logger)))).
Proof.
  intros warn logger.
  three_commands.
  all: intros line perr Hin; in_cases Hin; inversion Hin; subst.
  all: repeat (split; [reflexivity | ]).
  all: do 5 eexists; split; [cbn [In]; find_in | reflexivity].
Qed.

(** X12. The Configuration command writes every debug line with the
    logger it was given extended by the pair [Name], name argument; the
    Provider and Function commands write theirs with the logger as it was
    given. *)
Theorem only_configuration_logs_the_name :
  forall warn logger,
    (forall c,
        logs_with
          (WithValues logger [LogString "Name"; LogString (config_Name c)])
          (trace (snd (config warn c logger)))) /\
    (forall c, logs_with logger (trace (snd (provider warn c logger)))) /\
    (forall c, logs_with logger (trace (snd (function warn c logger)))).
Proof.
  intros warn logger.
  three_commands.
  all: intros l' msg kvs Hin; in_cases Hin; inversion Hin; reflexivity.
Qed.

(** X13. Debug lines apart, the calls of a command are made in the order
    of its text and each at most once: kubeconfig, client, fetch, parse,
    JSON encoding, patch, and then either the helper (on a failure) or the
    report (on success), never both. *)
Theorem calls_follow_the_command :
  forall warn logger,
    (forall c,
        StronglySorted lt
          (map rank (filter (fun e => negb (is_debug e))
                       (trace (snd (config warn c logger)))))) /\
    (forall c,
        StronglySorted lt
          (map rank (filter (fun e => negb (is_debug e))
                       (trace (snd (provider warn c logger)))))) /\
    (forall c,
        StronglySorted lt
          (map rank (filter (fun e => negb (is_debug e))
                       (trace (snd (function warn c logger)))))).
Proof.
  intros warn logger.
  three_commands.
  all: apply increasing_sorted; reflexivity.
Qed.

End Facts.

(** *** The properties on the sample clusters *)

Lemma no_client_no_call_witness :
  fst (sample_provider_run pass_on no_kubeconfig) =
    Some (WithMessage (Cause "no kubeconfig") "cannot get kubeconfig") /\
  untouched (trace (snd (sample_provider_run pass_on no_kubeconfig))) /\
  count is_client (trace (snd (sample_provider_run pass_on no_kubeconfig))) = 0.
Proof.
  apply (proj1 (proj1 (proj2
           (no_client_no_call _ _ _ _ _
              "cannot get kubeconfig" "cannot create client"
              "configuration.pkg.crossplane.io" "provider.pkg.crossplane.io"
              "function.pkg.crossplane.io" no_kubeconfig pass_on []))
           sample_update)).
  vm_compute. find_in.
Defined.

Lemma failures_pass_the_helper_witness :
  In (EvWarnIfNotFound (Cause "admission webhook denied") false
        (Some (Cause "admission webhook denied")))
     (trace (snd (sample_provider_run pass_on cluster_refusing_patch))) /\
  fst (sample_provider_run pass_on cluster_refusing_patch) =
    Wrap (Some (Cause "admission webhook denied")) "cannot update provider" /\
  count is_print
    (trace (snd (sample_provider_run pass_on cluster_refusing_patch))) = 0.
Proof.
  apply (proj1 (proj1 (proj2
           (failures_pass_the_helper _ _ _ _ _
              "cannot get kubeconfig" "cannot create client"
              "configuration.pkg.crossplane.io" "provider.pkg.crossplane.io"
              "function.pkg.crossplane.io" cluster_refusing_patch pass_on []))
           sample_update)
           (EvPatch Providers "provider-x" MergePatchType
              (list_byte_of_string "xpkg.example/provider-x@sha256:0a1b2c")
              (inr (Cause "admission webhook denied")))).
  - vm_compute. find_in.
  - reflexivity.
Defined.

Lemma command_touches_only_its_object_witness :
  count is_patch
    (trace (snd (sample_provider_run pass_on cluster_without_object))) = 0.
Proof.
  refine (proj2 (proj2 (proj2 (proj2 (proj2 (proj1 (proj2
            (command_touches_only_its_object _ _ _ _ _
               "cannot get kubeconfig" "cannot create client"
               "configuration.pkg.crossplane.io" "provider.pkg.crossplane.io"
               "function.pkg.crossplane.io" cluster_without_object pass_on []))
            sample_update)))))
            (EvGet Providers "provider-x"
               (inr (Cause "providers.pkg.crossplane.io provider-x not found")))
            (Cause "providers.pkg.crossplane.io provider-x not found")
            _ eq_refl eq_refl).
  vm_compute. find_in.
Defined.

Lemma accepted_patch_is_reported_witness :
  fst (sample_provider_run pass_on cluster) = None /\
  count is_print (trace (snd (sample_provider_run pass_on cluster))) = 1 /\
  count is_helper (trace (snd (sample_provider_run pass_on cluster))) = 0 /\
  exists r name pt data obj,
    In (EvPatch r name pt data (inl obj))
       (trace (snd (sample_provider_run pass_on cluster))) /\
    (String.append "provider.pkg.crossplane.io/provider-x updated" newline) =
      (strings_ToLower _ _ _ _ _ cluster "provider.pkg.crossplane.io" ++ "/" ++
       GetName _ _ _ _ _ cluster obj ++ " updated" ++ newline)%string.
Proof.
  apply (proj1 (proj2
           (accepted_patch_is_reported _ _ _ _ _
              "cannot get kubeconfig" "cannot create client"
              "configuration.pkg.crossplane.io" "provider.pkg.crossplane.io"
              "function.pkg.crossplane.io" cluster pass_on []))
           sample_update).
  vm_compute. find_in.
Defined.

End XpkgMore.
